(** * TaskFlow backend (server.js): a shallow embedding and its properties

    The server is an Express application over a SQLite database reached
    through knex.  The embedding follows the source:

    - JavaScript objects (request bodies, database rows, token payloads)
      are finite maps from field names to values; a missing key is
      [undefined];
    - the database is a finite map from table names to tables; a table has
      its column definitions, its rows and its AUTOINCREMENT counter;
    - every knex call is a computation over the database that returns a
      value or throws; [try]/[catch] and [db.transaction] are combinators;
    - the libraries the server calls but does not define (jsonwebtoken,
      bcryptjs, the JavaScript [Date] object and the host time zone) are
      interfaces, given as type classes. *)

From Stdlib Require Import ZArith Lia Ascii DecimalString.
From stdpp Require Import base option list gmap strings sorting.

Local Open Scope Z_scope.

(** ** Values and objects *)

(** Scalar JSON values.  Numbers are the integers; [undefined] is the
    absence of a key in an object. *)
Inductive value :=
  | VNull
  | VBool (b : bool)
  | VNum (n : Z)
  | VStr (s : string).

#[global] Instance value_eq_dec : EqDecision value.
Proof. solve_decision. Defined.

Abbreviation obj := (gmap string value).

(** JavaScript truthiness of [o.k]: [undefined], [null], [false], [0] and
    the empty string are falsy. *)
Definition truthy (v : option value) : bool :=
  match v with
  | None | Some VNull => false
  | Some (VBool b) => b
  | Some (VNum n) => negb (n =? 0)
  | Some (VStr s) => negb (String.eqb s "")
  end.

(** [x === "lit"] for a string literal. *)
Definition strict_eq_str (v : option value) (lit : string) : bool :=
  bool_decide (v = Some (VStr lit)).

(** Destructuring with a default, [const { k = d } = o]: the default
    replaces [undefined] only. *)
Definition or_default (v : option value) (d : value) : value :=
  match v with Some x => x | None => d end.

(** ** The database *)

(** The sqlite3 driver binds a JavaScript boolean as the integer 1 or 0;
    every other scalar is bound as it is. *)
Definition sql_bind (v : value) : value :=
  match v with
  | VBool b => VNum (if b then 1 else 0)
  | _ => v
  end.

Definition sql_bool (b : bool) : value := sql_bind (VBool b).

Inductive coltype := TInteger | TString | TText | TBoolean | TDatetime.

(** *** Column affinity

    SQLite converts a value it writes to the affinity of the column.  knex
    declares [string] as varchar(255) and [text] as text, which have TEXT
    affinity; [integer] has INTEGER affinity; [boolean] and [datetime] have
    NUMERIC affinity.  The embedding converts where a request writes to a
    row that is there ([stored_in], in an UPDATE); a new row keeps the
    values as they are bound, which is what SQLite stores when the fields
    of the request have the type of their column. *)
Inductive affinity := AffText | AffInteger | AffNumeric.

Definition col_affinity (ty : coltype) : affinity :=
  match ty with
  | TString | TText => AffText
  | TInteger => AffInteger
  | TBoolean | TDatetime => AffNumeric
  end.

(** What SQLite reads a text as when it applies INTEGER or NUMERIC
    affinity: a 64-bit integer, a number it reads as a real (a decimal
    point, an exponent, or an integer that does not fit 64 bits), or no
    number at all. *)
Inductive reading :=
  | ReadsText
  | ReadsInteger (n : Z)
  | ReadsReal.

(** [sqlite3Isspace] *)
Definition sql_space (c : ascii) : bool :=
  bool_decide (c ∈ [" "; "009"; "010"; "011"; "012"; "013"]%char).

Definition sql_digit (c : ascii) : option Z :=
  let n := Z.of_N (N_of_ascii c) in
  if (48 <=? n) && (n <=? 57) then Some (n - 48) else None.

Fixpoint skip_spaces (s : string) : string :=
  match s with
  | String c s' => if sql_space c then skip_spaces s' else s
  | EmptyString => EmptyString
  end.

(** An optional sign: was it a minus, and the rest. *)
Definition skip_sign (s : string) : bool * string :=
  match s with
  | String c s' =>
      if decide (c = "-"%char) then (true, s')
      else if decide (c = "+"%char) then (false, s')
      else (false, s)
  | EmptyString => (false, s)
  end.

(** The digits at the start of [s]: how many there are, the number they
    continue [acc] to, and the rest. *)
Fixpoint take_digits (acc : Z) (s : string) : nat * Z * string :=
  match s with
  | String c s' =>
      match sql_digit c with
      | Some d => let '(n, v, r) := take_digits (10 * acc + d) s' in (S n, v, r)
      | None => (O, acc, s)
      end
  | EmptyString => (O, acc, s)
  end.

(** [sqlite3AtoF] and [sqlite3Atoi64], as [applyNumericAffinity] uses them:
    white space, a sign, digits, a point and digits, an exponent, white
    space; at least one digit, and a digit in the exponent if there is
    one. *)
Definition numeric_reading (s : string) : reading :=
  let '(negative, s1) := skip_sign (skip_spaces s) in
  let '(n1, v, s2) := take_digits 0 s1 in
  let '(point, n2, s3) :=
    match s2 with
    | String c r =>
        if decide (c = "."%char)
        then let '(n, _, r') := take_digits 0 r in (true, n, r')
        else (false, O, s2)
    | EmptyString => (false, O, s2)
    end in
  let '(exponent, evalid, s4) :=
    match s3 with
    | String c r =>
        if bool_decide (c = "e"%char ∨ c = "E"%char)
        then let '(n, _, r') := take_digits 0 (skip_sign r).2 in
             (true, negb (n =? 0)%nat, r')
        else (false, true, s3)
    | EmptyString => (false, true, s3)
    end in
  if bool_decide (skip_spaces s4 = "") && negb (n1 + n2 =? 0)%nat && evalid
  then
    if negb point && negb exponent && (v <=? (if negative then 2 ^ 63 else 2 ^ 63 - 1))
    then ReadsInteger (if negative then - v else v)
    else ReadsReal
  else ReadsText.

(** An integer as text. *)
Definition int_text (n : Z) : string := NilZero.string_of_int (Z.to_int n).

(** The value a column of type [ty] holds after the bound value [v] was
    written to it.  The embedding has no real numbers: for a text that
    reads as a real, what it keeps is not what SQLite stores (see
    [storable]). *)
Definition stored (ty : coltype) (v : value) : value :=
  match col_affinity ty, v with
  | AffText, VNum n => VStr (int_text n)
  | (AffInteger | AffNumeric), VStr s =>
      match numeric_reading s with
      | ReadsInteger n => VNum n
      | _ => VStr s
      end
  | _, _ => v
  end.

(** The values of a request that a column of type [ty] stores the way
    [stored] says and the server reads back unchanged: the sqlite3 driver
    binds a number as an integer when it is a 32-bit integer and as a real
    otherwise; a text must not read as a real in a numeric column, and an
    integer it reads as must be one that JavaScript represents exactly. *)
Definition storable (ty : coltype) (v : value) : bool :=
  match v with
  | VNum n => (- 2 ^ 31 <=? n) && (n <? 2 ^ 31)
  | VStr s =>
      match col_affinity ty with
      | AffText => true
      | _ =>
          match numeric_reading s with
          | ReadsText => true
          | ReadsInteger n => Z.abs n <? 2 ^ 53
          | ReadsReal => false
          end
      end
  | _ => true
  end.

Inductive coldefault :=
  | DNone
  | DValue (v : value)
  | DNow.

Record column := Column {
  col_name : string;
  col_type : coltype;
  col_increments : bool;      (* integer primary key autoincrement *)
  col_unique : bool;
  col_notnull : bool;
  col_default : coldefault;
  col_references : option (string * string)
}.

#[global] Instance coltype_eq_dec : EqDecision coltype.
Proof. solve_decision. Defined.
#[global] Instance coldefault_eq_dec : EqDecision coldefault.
Proof. solve_decision. Defined.
#[global] Instance column_eq_dec : EqDecision column.
Proof. solve_decision. Defined.

Record table := Table {
  tbl_columns : list column;
  tbl_rows : list obj;
  tbl_seq : Z                 (* largest id handed out so far *)
}.

Abbreviation db := (gmap string table).

Definition col_names (t : table) : list string := col_name <$> tbl_columns t.

Definition has_col (t : table) (c : string) : bool := bool_decide (c ∈ col_names t).

(** ** Computations over the database *)

Inductive outcome (A : Type) :=
  | Ok (a : A)
  | Throw (e : string).
Arguments Ok {A} a.
Arguments Throw {A} e.

(** A knex call: it may change the database and it may throw.  What was
    written before a throw stays written. *)
Definition M (A : Type) : Type := db → outcome A * db.

Definition ret {A} (a : A) : M A := λ s, (Ok a, s).
Definition throw {A} (e : string) : M A := λ s, (Throw e, s).
Definition bind {A B} (m : M A) (k : A → M B) : M B :=
  λ s, match m s with
       | (Ok a, s') => k a s'
       | (Throw e, s') => (Throw e, s')
       end.

Notation "'let!' x ':=' m 'in' k" := (bind m (λ x, k))
  (at level 10, x pattern, m at level 100, k at level 200).
Notation "m ';;' k" := (bind m (λ _, k))
  (at level 100, k at level 200, right associativity).

Definition when_ (b : bool) (m : M unit) : M unit := if b then m else ret tt.

(** [db.transaction(async trx => body)]: commit when the body returns, roll
    back to the state at entry when it throws, and rethrow. *)
Definition transaction {A} (body : M A) : M A :=
  λ s, match body s with
       | (Ok a, s') => (Ok a, s')
       | (Throw e, _) => (Throw e, s)
       end.

Definition get_table (name : string) : M table :=
  λ s, match s !! name with
       | Some t => (Ok t, s)
       | None => (Throw ("no such table: " +:+ name), s)
       end.

Definition put_table (name : string) (t : table) : M unit :=
  λ s, (Ok tt, <[name := t]> s).

(** ** knex: the schema builder *)

Definition increments (n : string) : column := Column n TInteger true false true DNone None.
Definition string_col (n : string) : column := Column n TString false false false DNone None.
Definition text_col (n : string) : column := Column n TText false false false DNone None.
Definition boolean_col (n : string) : column := Column n TBoolean false false false DNone None.
Definition integer_col (n : string) : column := Column n TInteger false false false DNone None.
Definition datetime_col (n : string) : column := Column n TDatetime false false false DNone None.

Definition unique (c : column) : column :=
  Column (col_name c) (col_type c) (col_increments c) true (col_notnull c)
         (col_default c) (col_references c).
Definition notNullable (c : column) : column :=
  Column (col_name c) (col_type c) (col_increments c) (col_unique c) true
         (col_default c) (col_references c).
Definition defaultTo (d : coldefault) (c : column) : column :=
  Column (col_name c) (col_type c) (col_increments c) (col_unique c) (col_notnull c)
         d (col_references c).
Definition references (col tbl : string) (c : column) : column :=
  Column (col_name c) (col_type c) (col_increments c) (col_unique c) (col_notnull c)
         (col_default c) (Some (col, tbl)).
Definition renamed (n : string) (c : column) : column :=
  Column n (col_type c) (col_increments c) (col_unique c) (col_notnull c)
         (col_default c) (col_references c).

Definition hasTable (name : string) : M bool :=
  λ s, (Ok (bool_decide (is_Some (s !! name))), s).

Definition createTable (name : string) (cols : list column) : M unit :=
  λ s, match s !! name with
       | Some _ => (Throw ("table " +:+ name +:+ " already exists"), s)
       | None => (Ok tt, <[name := Table cols [] 0]> s)
       end.

(** [PRAGMA table_info] of a missing table is empty: no column is found. *)
Definition hasColumn (tbl col : string) : M bool :=
  λ s, (Ok (match s !! tbl with Some t => has_col t col | None => false end), s).

Definition rename_key (from to : string) (r : obj) : obj :=
  match r !! from with
  | Some v => <[to := v]> (delete from r)
  | None => r
  end.

Definition renameColumn (tbl from to : string) : M unit :=
  let! t := get_table tbl in
  if negb (has_col t from) then throw ("no such column: " +:+ from)
  else if has_col t to then throw ("duplicate column name: " +:+ to)
  else put_table tbl
         (Table ((λ c, if decide (col_name c = from) then renamed to c else c)
                   <$> tbl_columns t)
                (rename_key from to <$> tbl_rows t)
                (tbl_seq t)).

(** The value the rows already in the table read in a column added by
    [ALTER TABLE ... ADD COLUMN]; SQLite refuses a non-constant default and
    a NOT NULL column without a default. *)
Definition added_value (c : column) : outcome value :=
  match col_default c with
  | DNow => Throw "Cannot add a column with non-constant default"
  | DValue v => Ok (sql_bind v)
  | DNone =>
      if col_notnull c
      then Throw "Cannot add a NOT NULL column with default value NULL"
      else Ok VNull
  end.

Definition addColumn (tbl : string) (c : column) : M unit :=
  let! t := get_table tbl in
  if has_col t (col_name c) then throw ("duplicate column name: " +:+ col_name c)
  else if col_increments c then throw "Cannot add a PRIMARY KEY column"
  else match added_value c with
       | Throw e => throw e
       | Ok v => put_table tbl
                   (Table (tbl_columns t ++ [c])
                          (insert (col_name c) v <$> tbl_rows t)
                          (tbl_seq t))
       end.

(** The ids in use. *)
Definition row_ids (rows : list obj) : list Z :=
  omap (λ r, match r !! "id" with Some (VNum n) => Some n | _ => None end) rows.

(** knex drops a column of a SQLite table by building the table anew:
    it creates a table without the column, copies the rows, drops the old
    table and renames the new one.  The AUTOINCREMENT counter of the old
    table goes with it; the counter of the new one is the largest id
    copied. *)
Definition dropColumn (tbl name : string) : M unit :=
  let! t := get_table tbl in
  if negb (has_col t name) then throw ("no such column: " +:+ name)
  else if bool_decide (Exists (λ c, col_name c = name ∧ (col_increments c ∨ col_unique c))
                              (tbl_columns t))
  then throw ("cannot drop column " +:+ name)
  else put_table tbl
         (Table (filter (λ c, col_name c ≠ name) (tbl_columns t))
                (delete name <$> tbl_rows t)
                (foldr Z.max 0 (row_ids (tbl_rows t)))).

(** ** knex: the query builder *)

(** [where({col: v})] and [whereIn(col, vs)].  knex compiles a [null] in
    [where] to [IS NULL]; [IN] never matches NULL. *)
Inductive cond :=
  | CEq (col : string) (v : value)
  | CIn (col : string) (vs : list value).

Definition cond_col (c : cond) : string :=
  match c with CEq col _ | CIn col _ => col end.

Definition cond_holds (r : obj) (c : cond) : Prop :=
  match c with
  | CEq col v => r !! col = Some (sql_bind v)
  | CIn col vs =>
      match r !! col with
      | Some x => x ≠ VNull ∧ x ∈ sql_bind <$> vs
      | None => False
      end
  end.

#[global] Instance cond_holds_dec r c : Decision (cond_holds r c).
Proof. destruct c; simpl; [apply _|]. destruct (r !! col); apply _. Defined.

Definition row_matches (cs : list cond) (r : obj) : Prop := Forall (cond_holds r) cs.

#[global] Instance row_matches_dec cs r : Decision (row_matches cs r).
Proof. unfold row_matches. apply _. Defined.

Definition conds_known (t : table) (cs : list cond) : bool :=
  forallb (λ c, has_col t (cond_col c)) cs.

Definition knex_select (tbl : string) (cs : list cond) : M (list obj) :=
  let! t := get_table tbl in
  if conds_known t cs then ret (filter (row_matches cs) (tbl_rows t))
  else throw "no such column".

(** [.first()] *)
Definition knex_first (tbl : string) (cs : list cond) : M (option obj) :=
  let! rows := knex_select tbl cs in ret (head rows).

(** SQLite's order of values in [ORDER BY]: NULL first, then numbers, then
    text compared byte by byte. *)
Definition sql_le (a b : value) : Prop :=
  match sql_bind a, sql_bind b with
  | VNull, _ => True
  | _, VNull => False
  | VNum x, VNum y => x ≤ y
  | VNum _, _ => True
  | _, VNum _ => False
  | VStr x, VStr y => String.le x y
  | _, _ => True
  end.

#[global] Instance sql_le_dec : RelDecision sql_le.
Proof.
  intros a b. unfold sql_le.
  destruct (sql_bind a), (sql_bind b); apply _.
Defined.

Definition row_le (col : string) (r1 r2 : obj) : Prop :=
  sql_le (or_default (r1 !! col) VNull) (or_default (r2 !! col) VNull).

#[global] Instance row_le_dec col : RelDecision (row_le col).
Proof. intros r1 r2. unfold row_le. apply _. Defined.

(** [.where(...).orderBy(col, "asc")] *)
Definition knex_select_ordered (tbl : string) (cs : list cond) (col : string)
  : M (list obj) :=
  let! t := get_table tbl in
  if conds_known t cs && has_col t col
  then ret (merge_sort (row_le col) (filter (row_matches cs) (tbl_rows t)))
  else throw "no such column".

(** AUTOINCREMENT hands out one more than the largest id that is in the
    table or that the counter remembers. *)
Definition next_id (t : table) : Z :=
  1 + foldr Z.max (tbl_seq t) (row_ids (tbl_rows t)).

(** The value a new row gets in column [c]: the bound value if the insert
    names the column, else the next id, the column default, or NULL
    ([useNullAsDefault]). [ts] is SQLite's CURRENT_TIMESTAMP. *)
Definition column_value (ts : string) (id : Z) (r : obj) (c : column) : value :=
  match r !! col_name c with
  | Some v =>
      if col_increments c && bool_decide (v = VNull) then VNum id else sql_bind v
  | None =>
      if col_increments c then VNum id
      else match col_default c with
           | DNone => VNull
           | DValue v => sql_bind v
           | DNow => VStr ts
           end
  end.

Definition new_row (ts : string) (id : Z) (r : obj) (cols : list column) : obj :=
  list_to_map ((λ c, (col_name c, column_value ts id r c)) <$> cols).

Definition is_null (v : option value) : bool :=
  match v with None | Some VNull => true | _ => false end.

Definition is_num (v : option value) : bool :=
  match v with Some (VNum _) => true | _ => false end.

(** The constraints SQLite checks on a written row [r], for the written
    columns [cols], in a table whose rows after the write are [rows]:
    NOT NULL, an integer in the primary key, and no second row with the
    same value in a unique column. *)
Definition row_ok (cols : list column) (rows : list obj) (r : obj) : bool :=
  forallb (λ c,
    let v := r !! col_name c in
    (negb (col_notnull c) || negb (is_null v))
    && (negb (col_increments c) || is_num v)
    && (negb (col_unique c || col_increments c) || is_null v
        || bool_decide (length (filter (λ x, x !! col_name c = v) rows) ≤ 1)%nat))
    cols.

Definition keys_known (t : table) (o : obj) : bool :=
  bool_decide (map_Forall (λ k _, k ∈ col_names t) o).

(** [db(tbl).insert(r)] resolves to the new row's id. *)
Definition knex_insert (ts : string) (tbl : string) (r : obj) : M Z :=
  let! t := get_table tbl in
  if negb (keys_known t r) then throw "table has no such column"
  else
    let row := new_row ts (next_id t) r (tbl_columns t) in
    let rows' := tbl_rows t ++ [row] in
    let id := match row !! "id" with Some (VNum n) => n | _ => next_id t end in
    if row_ok (tbl_columns t) rows' row
    then (put_table tbl (Table (tbl_columns t) rows' (Z.max (tbl_seq t) id)) ;; ret id)
    else throw "SQLITE_CONSTRAINT".

Fixpoint column_type (cols : list column) (k : string) : option coltype :=
  match cols with
  | c :: cols' => if decide (col_name c = k) then Some (col_type c) else column_type cols' k
  | [] => None
  end.

(** What column [k] holds after [v] was bound and written to it. *)
Definition stored_in (cols : list column) (k : string) (v : value) : value :=
  match column_type cols k with
  | Some ty => stored ty (sql_bind v)
  | None => sql_bind v
  end.

(** [SET k = v] for every key of [u]; the other columns keep their value. *)
Definition apply_update (cols : list column) (u : obj) (r : obj) : obj :=
  map_imap (λ k v, Some (stored_in cols k v)) u ∪ r.

(** The rows of a table after an update of those that match [cs]. *)
Definition update_rows (cols : list column) (cs : list cond) (u : obj) (rows : list obj)
  : list obj :=
  (λ r, if decide (row_matches cs r) then apply_update cols u r else r) <$> rows.

(** The integer primary key of a table is its rowid, and SQLite keeps and
    scans the rows of a table in the order of the rowid: an update that
    writes the primary key moves the rows it renumbers. *)
Fixpoint rowid_column (cols : list column) : option string :=
  match cols with
  | c :: cols' => if col_increments c then Some (col_name c) else rowid_column cols'
  | [] => None
  end.

Definition in_rowid_order (written : list column) (rows : list obj) : list obj :=
  match rowid_column written with
  | Some k => merge_sort (row_le k) rows
  | None => rows
  end.

(** The columns an update object sets. *)
Definition written (cols : list column) (u : obj) : list column :=
  filter (λ c, is_Some (u !! col_name c)) cols.

(** [db(tbl).where(cs).update(u)] resolves to the number of rows changed.
    knex refuses an empty update; SQLite refuses a column the table does not
    have and a row that breaks a constraint on a column it sets (a primary
    key that is not an integer is a datatype mismatch), and then changes
    nothing. *)
Definition knex_update (tbl : string) (cs : list cond) (u : obj) : M Z :=
  if bool_decide (u = ∅) then throw "Empty .update() call detected!"
  else
    let! t := get_table tbl in
    if negb (conds_known t cs && keys_known t u) then throw "no such column"
    else
      let rows' := update_rows (tbl_columns t) cs u (tbl_rows t) in
      let changed :=
        apply_update (tbl_columns t) u <$> filter (row_matches cs) (tbl_rows t) in
      let set := written (tbl_columns t) u in
      if forallb (row_ok set rows') changed
      then (put_table tbl (Table (tbl_columns t) (in_rowid_order set rows')
                                 (tbl_seq t)) ;;
            ret (Z.of_nat (length changed)))
      else throw "SQLITE_CONSTRAINT".

(** [db(tbl).where(cs).del()] resolves to the number of rows deleted.
    Foreign keys are not enforced (SQLite's default). *)
Definition knex_del (tbl : string) (cs : list cond) : M Z :=
  let! t := get_table tbl in
  if negb (conds_known t cs) then throw "no such column"
  else
    (put_table tbl (Table (tbl_columns t)
                          (filter (λ r, ¬ row_matches cs r) (tbl_rows t))
                          (tbl_seq t)) ;;
     ret (Z.of_nat (length (filter (row_matches cs) (tbl_rows t))))).

(** ** The host: [Date], the time zone and SQLite's clock *)

(** Time values are milliseconds since the epoch, as in JavaScript. *)
Class Host := {
  (** [new Date(t).toISOString()] *)
  toISOString : Z → string;
  (** the time value of [new Date(s)]; [None] is an invalid date *)
  Date_parse : string → option Z;
  (** ECMAScript's LocalTZA(t, isUTC): the offset of local time *)
  LocalTZA : Z → bool → Z;
  (** SQLite's CURRENT_TIMESTAMP at a time value *)
  CURRENT_TIMESTAMP : Z → string
}.

(** ** Startup: [migrate] *)

Definition users_columns : list column :=
  [ increments "id";
    notNullable (unique (string_col "username"));
    notNullable (unique (string_col "email"));
    notNullable (string_col "password");
    defaultTo (DValue (VBool true)) (boolean_col "browser_notifications") ].

Definition tasks_columns : list column :=
  [ increments "id";
    notNullable (string_col "title");
    text_col "description";
    notNullable (string_col "priority");
    notNullable (string_col "status");
    string_col "dueDate";
    defaultTo (DValue (VBool false)) (boolean_col "completed");
    references "id" "users" (integer_col "user_id");
    defaultTo DNow (datetime_col "created_at") ].

(** The body of the [try] block; [now] is the time value of [new Date()]
    in the last step. *)
Definition migrate_body `{Host} (now : Z) : M unit :=
  let! users := hasTable "users" in
  when_ (negb users) (createTable "users" users_columns) ;;
  let! tasks := hasTable "tasks" in
  when_ (negb tasks) (createTable "tasks" tasks_columns) ;;
  let! legacy := hasColumn "users" "email_notifications" in
  when_ legacy (renameColumn "users" "email_notifications" "browser_notifications") ;;
  let! notif := hasColumn "users" "browser_notifications" in
  when_ (negb notif)
    (addColumn "users" (defaultTo (DValue (VBool true)) (boolean_col "browser_notifications"))) ;;
  let! reminder := hasColumn "tasks" "reminder_sent" in
  when_ reminder (dropColumn "tasks" "reminder_sent") ;;
  let! created := hasColumn "tasks" "created_at" in
  when_ (negb created)
    (addColumn "tasks" (datetime_col "created_at") ;;
     knex_update "tasks" [] {[ "created_at" := VStr (toISOString now) ]} ;;
     ret tt).

(** [migrate]: the error, if any, is caught and logged; the server starts
    either way.  The result is the logged migration error, if any. *)
Definition migrate `{Host} (now : Z) (s : db) : option string * db :=
  match migrate_body now s with
  | (Ok _, s') => (None, s')
  | (Throw e, s') => (Some e, s')
  end.

(** ** Responses and handlers *)

Inductive body :=
  | Message (m : string)                 (* { message: m } *)
  | Json (o : option obj)                (* res.json(o); [None] is undefined *)
  | JsonList (l : list obj)
  | LoginOk (access_token : string) (username email : option value).

Record response := Response { status : Z; payload : body }.

(** A handler's [try { ... } catch { return res.status(500)... }]. *)
Definition try_catch (m : M response) (on_error : response) : db → response * db :=
  λ s, match m s with
       | (Ok r, s') => (r, s')
       | (Throw _, s') => (on_error, s')
       end.

(** A key of a [where] object; knex throws on an undefined binding. *)
Definition where_eq (col : string) (v : option value) : M cond :=
  match v with
  | Some x => ret (CEq col x)
  | None => throw "Undefined binding(s) detected"
  end.

(** A field of an object literal whose value may be undefined. *)
Definition set_opt (k : string) (v : option value) (o : obj) : obj :=
  match v with Some x => <[k := x]> o | None => o end.

(** [s.split(sep)] for a one-character separator. *)
Fixpoint split_on (sep : Ascii.ascii) (s : string) : list string :=
  match s with
  | EmptyString => [EmptyString]
  | String c s' =>
      if decide (c = sep) then EmptyString :: split_on sep s'
      else match split_on sep s' with
           | hd :: tl => String c hd :: tl
           | [] => [String c EmptyString]
           end
  end.

(** ** Auth helpers *)

(** jsonwebtoken's codec: [jwt_encode payload secret] is the signed compact
    token; [jwt_decode token secret] is the payload of a well-formed token
    whose signature is valid under [secret]. *)
Class Jwt := {
  jwt_encode : obj → string → string;
  jwt_decode : string → string → option obj
}.

(** bcryptjs: does the plain text match the hash? *)
Class Bcrypt := {
  bcrypt_verify : string → string → bool
}.


(** [JWT_EXPIRE = "24h"], in seconds. *)
Definition JWT_EXPIRE : Z := 24 * 60 * 60.

(** [jwt.sign(payload, secret, { expiresIn })]: the token carries the issue
    time and the expiry, in seconds. *)
Definition jwt_sign `{Jwt} (payload : obj) (secret : string) (expiresIn now : Z) : string :=
  let iat := now / 1000 in
  jwt_encode (<["exp" := VNum (iat + expiresIn)]> (<["iat" := VNum iat]> payload)) secret.

(** [jwt.verify(token, secret)]: [None] stands for a throw. *)
Definition jwt_verify `{Jwt} (token secret : string) (now : Z) : option obj :=
  match jwt_decode token secret with
  | None => None
  | Some payload =>
      match payload !! "exp" with
      | None => Some payload
      | Some (VNum exp) => if exp <=? now / 1000 then None else Some payload
      | Some _ => None
      end
  end.

Definition signToken `{Jwt} (secret : string) (user : obj) (now : Z) : string :=
  jwt_sign (set_opt "id" (user !! "id") (set_opt "username" (user !! "username") ∅))
           secret JWT_EXPIRE now.

Inductive auth_result :=
  | Rejected (r : response)
  | Authenticated (user : obj).          (* req.user = decoded; next() *)

Definition requireAuth `{Jwt} (secret : string) (authorization : option string) (now : Z)
  : auth_result :=
  match authorization with
  | None => Rejected (Response 401 (Message "No token provided"))
  | Some auth =>
      if negb (String.prefix "Bearer " auth)
      then Rejected (Response 401 (Message "No token provided"))
      else
        match split_on " "%char auth !! 1%nat with
        | None => Rejected (Response 401 (Message "Invalid or expired token"))
        | Some token =>
            match jwt_verify token secret now with
            | Some decoded => Authenticated decoded
            | None => Rejected (Response 401 (Message "Invalid or expired token"))
            end
        end
  end.

(** ** Auth routes *)

(** [bcrypt.compare(s, hash)] rejects when an argument is not a string. *)
Definition bcrypt_compare `{Bcrypt} (s hash : option value) : M bool :=
  match s, hash with
  | Some (VStr p), Some (VStr h) => ret (bcrypt_verify p h)
  | _, _ => throw "Illegal arguments"
  end.

Definition incorrect_credentials : response :=
  Response 401 (Message "Incorrect email or password").

(** POST /api/auth/login *)
Definition login `{Jwt} `{Bcrypt} (secret : string) (req_body : obj) (now : Z)
  : db → response * db :=
  try_catch
    (let! by_email := where_eq "email" (req_body !! "email") in
     let! user := knex_first "users" [by_email] in
     match user with
     | None => ret incorrect_credentials
     | Some u =>
         let! ok := bcrypt_compare (req_body !! "password") (u !! "password") in
         if negb ok then ret incorrect_credentials
         else ret (Response 200
                     (LoginOk (signToken secret u now) (u !! "username") (u !! "email")))
     end)
    (Response 500 (Message "Login failed")).

(** ** Task routes *)

Definition msPerDay : Z := 1000 * 60 * 60 * 24.

(** ECMAScript's LocalTime and UTC. *)
Definition LocalTime `{Host} (t : Z) : Z := t + LocalTZA t true.
Definition UTC `{Host} (t : Z) : Z := t - LocalTZA t false.

(** [d.setDate(d.getDate() + 1)]: the same local clock time on the next
    local calendar day. *)
Definition setDate_next `{Host} (t : Z) : Z := UTC (LocalTime t + msPerDay).

(** [d.toISOString().split('T')[0]] *)
Definition iso_date `{Host} (t : Z) : string :=
  default "" (head (split_on "T"%char (toISOString t))).

(** The time value of [new Date(v)] for a row field [v]. *)
Definition new_Date `{Host} (v : option value) : option Z :=
  match v with
  | Some (VStr s) => Date_parse s
  | Some (VNum n) => Some n
  | Some (VBool b) => Some (if b then 1 else 0)
  | Some VNull => Some 0
  | None => None
  end.

(** [Math.ceil(a / b)] for integers [a] and [b > 0].  The quotients the
    handler forms are within a few days, where the floating-point division
    is exact enough for the ceiling to be that of the rational quotient. *)
Definition ceil_div (a b : Z) : Z := - ((- a) / b).

(** [Math.ceil((new Date(task.dueDate) - today) / msPerDay)]; NaN is
    serialised as [null]. *)
Definition daysUntilDue `{Host} (today : Z) (task : obj) : value :=
  match new_Date (task !! "dueDate") with
  | Some dueDate => VNum (ceil_div (dueDate - today) msPerDay)
  | None => VNull
  end.

(** GET /api/tasks *)
Definition listTasks (user : obj) : db → response * db :=
  try_catch
    (let! mine := where_eq "user_id" (user !! "id") in
     let! tasks := knex_select_ordered "tasks" [mine] "id" in
     ret (Response 200 (JsonList tasks)))
    (Response 500 (Message "Failed to fetch tasks")).

(** GET /api/tasks/due-soon; [now] is the time value of [new Date()]. *)
Definition listDueSoon `{Host} (user : obj) (now : Z) : db → response * db :=
  try_catch
    (let today := now in
     let tomorrow := setDate_next today in
     let todayString := iso_date today in
     let tomorrowString := iso_date tomorrow in
     let! mine := where_eq "user_id" (user !! "id") in
     let! dueTasks :=
       knex_select_ordered "tasks"
         [mine; CEq "completed" (VBool false);
          CIn "dueDate" [VStr todayString; VStr tomorrowString]]
         "dueDate" in
     let tasksWithDays :=
       (λ task, <["daysUntilDue" := daysUntilDue today task]> task) <$> dueTasks in
     ret (Response 200 (JsonList tasksWithDays)))
    (Response 500 (Message "Failed to fetch due tasks")).




(** The payload after
    [if (updates.status === "completed") updates.completed = true;
     else if (updates.status) updates.completed = false;] *)
Definition with_completed (updates : obj) : obj :=
  if strict_eq_str (updates !! "status") "completed"
  then <["completed" := VBool true]> updates
  else if truthy (updates !! "status")
  then <["completed" := VBool false]> updates
  else updates.

Definition task_not_found : response := Response 404 (Message "Task not found").

(** PUT /api/tasks/:id; [id] is [parseInt(req.params.id)]. *)
Definition updateTask (user : obj) (id : Z) (req_body : obj) : db → response * db :=
  try_catch
    (let! mine := where_eq "user_id" (user !! "id") in
     let! task := knex_first "tasks" [CEq "id" (VNum id); mine] in
     match task with
     | None => ret task_not_found
     | Some _ =>
         let updates := with_completed req_body in
         knex_update "tasks" [CEq "id" (VNum id)] updates ;;
         let! updated := knex_first "tasks" [CEq "id" (VNum id)] in
         ret (Response 200 (Json updated))
     end)
    (Response 500 (Message "Failed to update task")).

(** DELETE /api/tasks/:id *)
Definition deleteTask (user : obj) (id : Z) : db → response * db :=
  try_catch
    (let! mine := where_eq "user_id" (user !! "id") in
     let! count := knex_del "tasks" [CEq "id" (VNum id); mine] in
     if count =? 0 then ret task_not_found
     else ret (Response 200 (Message "Task deleted")))
    (Response 500 (Message "Failed to delete task")).

(** ** User settings routes *)

(** DELETE /api/me/delete-account *)
Definition deleteAccount (user : obj) : db → response * db :=
  try_catch
    (let userId := user !! "id" in
     transaction
       (let! owned := where_eq "user_id" userId in
        knex_del "tasks" [owned] ;;
        let! self := where_eq "id" userId in
        let! deletedCount := knex_del "users" [self] in
        if deletedCount =? 0 then throw "User not found" else ret tt) ;;
     ret (Response 200 (Message "Account and all data deleted successfully")))
    (Response 500 (Message "Failed to delete account")).

(** ** Instances of the interfaces, to run the server on concrete inputs *)

(** The proleptic Gregorian calendar, days counted from 1970-01-01. *)
Module Calendar.

Definition civil_from_days (days : Z) : Z * Z * Z :=
  let z := days + 719468 in
  let era := z / 146097 in
  let doe := z - era * 146097 in
  let yoe := (doe - doe / 1460 + doe / 36524 - doe / 146096) / 365 in
  let doy := doe - (365 * yoe + yoe / 4 - yoe / 100) in
  let mp := (5 * doy + 2) / 153 in
  let d := doy - (153 * mp + 2) / 5 + 1 in
  let m := if mp <? 10 then mp + 3 else mp - 9 in
  let y := yoe + era * 400 in
  (if m <=? 2 then y + 1 else y, m, d).

Definition days_from_civil (y m d : Z) : Z :=
  let y := if m <=? 2 then y - 1 else y in
  let era := y / 400 in
  let yoe := y - era * 400 in
  let doy := (153 * (if 2 <? m then m - 3 else m + 9) + 2) / 5 + d - 1 in
  let doe := yoe * 365 + yoe / 4 - yoe / 100 + doy in
  era * 146097 + doe - 719468.

Definition digit (n : Z) : ascii := ascii_of_N (48 + Z.to_N (n mod 10)).

(** [n] in decimal, on exactly [w] digits. *)
Fixpoint pad (w : nat) (n : Z) : string :=
  match w with
  | O => ""
  | S w' => pad w' (n / 10) +:+ String (digit n) ""
  end.

Definition digit_val (c : ascii) : option Z :=
  let n := Z.of_N (N_of_ascii c) in
  if (48 <=? n) && (n <=? 57) then Some (n - 48) else None.

Fixpoint number_from (acc : Z) (s : string) : option Z :=
  match s with
  | EmptyString => Some acc
  | String c s' =>
      match digit_val c with
      | Some d => number_from (10 * acc + d) s'
      | None => None
      end
  end.

Definition number (s : string) : option Z :=
  match s with EmptyString => None | _ => number_from 0 s end.

Definition year_string (y : Z) : string :=
  if (0 <=? y) && (y <=? 9999) then pad 4 y
  else (if y <? 0 then "-" else "+") +:+ pad 6 (Z.abs y).

Definition date_string (t : Z) : string :=
  let '(y, m, d) := civil_from_days (t / msPerDay) in
  year_string y +:+ "-" +:+ pad 2 m +:+ "-" +:+ pad 2 d.

Definition time_string (t : Z) : string :=
  let ms := t mod msPerDay in
  pad 2 (ms / 3600000) +:+ ":" +:+ pad 2 (ms / 60000 mod 60) +:+ ":"
    +:+ pad 2 (ms / 1000 mod 60).

(** YYYY-MM-DDTHH:mm:ss.sssZ *)
Definition iso_string (t : Z) : string :=
  date_string t +:+ "T" +:+ time_string t +:+ "." +:+ pad 3 (t mod 1000) +:+ "Z".

(** The date-only form YYYY-MM-DD, read as midnight UTC; anything else
    is an invalid date here. *)
Definition parse_date (s : string) : option Z :=
  match split_on "-"%char s with
  | [ys; ms; ds] =>
      if bool_decide (String.length ys = 4%nat ∧ String.length ms = 2%nat
                      ∧ String.length ds = 2%nat)
      then
        match number ys, number ms, number ds with
        | Some y, Some m, Some d =>
            let days := days_from_civil y m d in
            if bool_decide (civil_from_days days = (y, m, d))
            then Some (days * msPerDay) else None
        | _, _, _ => None
        end
      else None
  | _ => None
  end.

(** YYYY-MM-DD HH:MM:SS *)
Definition sqlite_string (t : Z) : string := date_string t +:+ " " +:+ time_string t.

End Calendar.

(** A host whose time zone is a fixed offset from UTC, in milliseconds. *)
Definition fixed_offset_host (offset : Z) : Host := {|
  toISOString := Calendar.iso_string;
  Date_parse := Calendar.parse_date;
  LocalTZA := λ _ _, offset;
  CURRENT_TIMESTAMP := Calendar.sqlite_string
|}.

(** A host on UTC. *)
Definition utc : Host := fixed_offset_host 0.

(** A transparent token codec: the payload's fields in hexadecimal and
    decimal, then a dot, then the secret in hexadecimal in the place of the
    signature.  It has the shape of a compact token (no space, segments
    separated by dots) and decodes under the encoding secret only. *)
Module PlainJwt.

Definition hex_digit (n : N) : ascii :=
  if (n <? 10)%N then ascii_of_N (48 + n) else ascii_of_N (87 + n).

Fixpoint hex (s : string) : string :=
  match s with
  | EmptyString => EmptyString
  | String c s' =>
      let n := N_of_ascii c in
      String (hex_digit (n / 16)) (String (hex_digit (n mod 16)) (hex s'))
  end.

Definition hex_val (c : ascii) : option N :=
  let n := N_of_ascii c in
  if (48 <=? n)%N && (n <=? 57)%N then Some (n - 48)%N
  else if (97 <=? n)%N && (n <=? 102)%N then Some (n - 87)%N
  else None.

Fixpoint unhex (s : string) : option string :=
  match s with
  | EmptyString => Some EmptyString
  | String a (String b s') =>
      match hex_val a, hex_val b, unhex s' with
      | Some h, Some l, Some r => Some (String (ascii_of_N (16 * h + l)) r)
      | _, _, _ => None
      end
  | _ => None
  end.

Definition enc_value (v : value) : string :=
  match v with
  | VNull => "n"
  | VBool true => "t"
  | VBool false => "f"
  | VNum n => "i" +:+ DecimalString.NilZero.string_of_int (Z.to_int n)
  | VStr s => "s" +:+ hex s
  end.

Definition dec_value (s : string) : option value :=
  match s with
  | String c r =>
      if decide (c = "i"%char)
      then (λ d, VNum (Z.of_int d)) <$> DecimalString.NilZero.int_of_string r
      else if decide (c = "s"%char) then VStr <$> unhex r
      else if decide (s = "n") then Some VNull
      else if decide (s = "t") then Some (VBool true)
      else if decide (s = "f") then Some (VBool false)
      else None
  | EmptyString => None
  end.

Definition enc_field (kv : string * value) : string :=
  hex kv.1 +:+ "=" +:+ enc_value kv.2 +:+ ";".

Definition enc_obj (o : obj) : string :=
  foldr (λ kv acc, enc_field kv +:+ acc) "" (map_to_list o).

Definition dec_field (s : string) : option (string * value) :=
  match split_on "="%char s with
  | [k; v] =>
      match unhex k, dec_value v with
      | Some k', Some v' => Some (k', v')
      | _, _ => None
      end
  | _ => None
  end.

Definition dec_obj (s : string) : option obj :=
  list_to_map <$> mapM dec_field (filter (λ f, f ≠ "") (split_on ";"%char s)).

Definition encode (payload : obj) (secret : string) : string :=
  enc_obj payload +:+ "." +:+ hex secret.

Definition decode (token secret : string) : option obj :=
  match split_on "."%char token with
  | [p; signature] => if decide (signature = hex secret) then dec_obj p else None
  | _ => None
  end.

End PlainJwt.

Definition plain_jwt : Jwt := {|
  jwt_encode := PlainJwt.encode;
  jwt_decode := PlainJwt.decode
|}.

(** A stand-in for bcrypt: the hash of a password is the password after a
    fixed prefix. *)
Definition prefix_bcrypt : Bcrypt := {|
  bcrypt_verify := λ p h, bool_decide (h = "$2a$10$" +:+ p)
|}.

(** ** States the routes run on *)

(** Column definitions up to their defaults: a table that [migrate] brought
    up to date has the columns of a fresh one, but the default of a column
    it added or renamed may differ. *)
Definition shape (cols : list column) : list column := defaultTo DNone <$> cols.

(** The [tasks] table exists and has the current columns. *)
Definition tasks_ready (s : db) : bool :=
  match s !! "tasks" with
  | Some t => bool_decide (shape (tbl_columns t) = shape tasks_columns)
  | None => false
  end.

(** The [users] table exists and has the current columns. *)
Definition users_ready (s : db) : bool :=
  match s !! "users" with
  | Some t => bool_decide (shape (tbl_columns t) = shape users_columns)
  | None => false
  end.

Definition rows_of (tbl : string) (s : db) : list obj :=
  match s !! tbl with Some t => tbl_rows t | None => [] end.

(** Row [r] is the task with id [id] and owner [uid]. *)
Definition task_of (uid : value) (id : Z) (r : obj) : Prop :=
  r !! "id" = Some (VNum id) ∧ r !! "user_id" = Some (sql_bind uid).

(** ** Example states *)

Definition user_row (id : Z) (username email hash : string) : obj :=
  {[ "id" := VNum id; "username" := VStr username; "email" := VStr email;
     "password" := VStr hash; "browser_notifications" := VNum 1 ]}.

Definition task_row (id : Z) (title status : string) (dueDate : value)
    (completed : bool) (user_id : Z) : obj :=
  {[ "id" := VNum id; "title" := VStr title; "description" := VStr "";
     "priority" := VStr "medium"; "status" := VStr status; "dueDate" := dueDate;
     "completed" := sql_bool completed; "user_id" := VNum user_id;
     "created_at" := VStr "2024-01-01T08:00:00.000Z" ]}.

(** Two users; user 1 has two tasks and user 2 has one.  Task 4 names an
    owner that has no user row (foreign keys are not enforced). *)
Definition example_db : db :=
  {[ "users" := Table users_columns
                  [ user_row 1 "alice" "alice@example.org" "$2a$10$wonderland";
                    user_row 2 "bob" "bob@example.org" "$2a$10$builder" ]
                  2;
     "tasks" := Table tasks_columns
                  [ task_row 1 "write report" "pending" (VStr "2024-01-02") false 1;
                    task_row 2 "pay rent" "completed" (VStr "2024-01-02") true 1;
                    task_row 3 "buy milk" "pending" (VStr "2024-01-01") false 2;
                    task_row 4 "left over" "pending" VNull false 3 ]
                  4 ]}.

(** The identities [requireAuth] attaches for tokens of users 1, 2 and 3. *)
Definition identity (id : Z) (username : string) : obj :=
  {[ "id" := VNum id; "username" := VStr username;
     "iat" := VNum 1704096000; "exp" := VNum 1704182400 ]}.

Definition alice : obj := identity 1 "alice".
Definition bob : obj := identity 2 "bob".
Definition carol : obj := identity 3 "carol".

(** A payload over the fields a task form edits, with no null in a NOT
    NULL column. *)
Definition plain_update (p : obj) : Prop :=
  map_Forall (λ k _, k ∈ ["title"; "description"; "priority"; "status"; "dueDate";
                          "completed"]) p
  ∧ p ≠ ∅
  ∧ p !! "title" ≠ Some VNull
  ∧ p !! "priority" ≠ Some VNull
  ∧ p !! "status" ≠ Some VNull.

(** ** Request sequences and the completed/status consistency *)




(** [completed] is 1 exactly when [status] is "completed". *)
Definition consistent_row (r : obj) : Prop :=
  r !! "completed"
  = Some (sql_bool (bool_decide (r !! "status" = Some (VStr "completed")))).

Definition consistent (s : db) : Prop := Forall consistent_row (rows_of "tasks" s).



(** ** Payloads the embedding covers *)

(** Column [k] stores the request value [v] the way [stored_in] says. *)
Definition storable_in (cols : list column) (k : string) (v : value) : bool :=
  match column_type cols k with
  | Some ty => storable ty (sql_bind v)
  | None => true
  end.

(** Every value of the payload is: its numbers are 32-bit integers, and no
    text written to a numeric column reads as a real or as an integer
    JavaScript cannot represent. *)
Definition payload_storable (cols : list column) (p : obj) : Prop :=
  map_Forall (λ k v, storable_in cols k v = true) p.

#[global] Instance payload_storable_dec cols p : Decision (payload_storable cols p).
Proof. unfold payload_storable. apply _. Defined.


(** ** The spec's dates *)


(** ** Tokens *)

(** Does the character occur in the string? *)
Fixpoint has_char (c : ascii) (s : string) : bool :=
  match s with
  | EmptyString => false
  | String c' s' => bool_decide (c' = c) || has_char c s'
  end.

(** The claims [signToken] has [jwt.sign] encode for a user row: the
    id and username of the row, the issue time and the expiry. *)
Definition issued_claims (user : obj) (now : Z) : obj :=
  <["exp" := VNum (now / 1000 + JWT_EXPIRE)]>
    (<["iat" := VNum (now / 1000)]>
       (set_opt "id" (user !! "id") (set_opt "username" (user !! "username") ∅))).

(** ** What [migrate] looks at *)

(** The answer of [hasColumn] in a state. *)
Definition has_column (s : db) (tbl col : string) : bool :=
  match s !! tbl with Some t => has_col t col | None => false end.

(** Nothing is left for [migrate] to do: both tables are there, [users]
    has [browser_notifications] and not [email_notifications], [tasks]
    has [created_at] and not [reminder_sent]. *)
Definition settled (s : db) : Prop :=
  is_Some (s !! "users") ∧ is_Some (s !! "tasks")
  ∧ has_column s "users" "email_notifications" = false
  ∧ has_column s "users" "browser_notifications" = true
  ∧ has_column s "tasks" "reminder_sent" = false
  ∧ has_column s "tasks" "created_at" = true.

(** The tables [renameColumn], [addColumn] and [dropColumn] leave. *)
Definition rename_in (from to : string) (t : table) : table :=
  Table ((λ c, if decide (col_name c = from) then renamed to c else c) <$> tbl_columns t)
        (rename_key from to <$> tbl_rows t) (tbl_seq t).

Definition add_in (c : column) (v : value) (t : table) : table :=
  Table (tbl_columns t ++ [c]) (insert (col_name c) v <$> tbl_rows t) (tbl_seq t).

Definition drop_in (name : string) (t : table) : table :=
  Table (filter (λ c, col_name c ≠ name) (tbl_columns t))
        (delete name <$> tbl_rows t) (foldr Z.max 0 (row_ids (tbl_rows t))).

(** ** Databases of earlier versions *)

(** The tables of a version that had [email_notifications] on users and
    [reminder_sent], but no [created_at], on tasks. *)
Definition legacy_users_columns (d : coldefault) : list column :=
  take 4 users_columns ++ [defaultTo d (boolean_col "email_notifications")].

Definition legacy_tasks_columns (d : coldefault) : list column :=
  take 8 tasks_columns ++ [defaultTo d (boolean_col "reminder_sent")].

(** A database of that version, with one user and one task; four more
    tasks were created and deleted. *)
Definition legacy_db : db :=
  {[ "users" := Table (legacy_users_columns (DValue (VBool true)))
                  [ {[ "id" := VNum 1; "username" := VStr "alice";
                       "email" := VStr "alice@example.org";
                       "password" := VStr "$2a$10$wonderland";
                       "email_notifications" := VNum 0 ]} ]
                  1;
     "tasks" := Table (legacy_tasks_columns (DValue (VBool false)))
                  [ {[ "id" := VNum 1; "title" := VStr "write report";
                       "description" := VStr ""; "priority" := VStr "medium";
                       "status" := VStr "pending"; "dueDate" := VStr "2024-01-02";
                       "completed" := VNum 0; "user_id" := VNum 1;
                       "reminder_sent" := VNum 1 ]} ]
                  5 ]}.

(** A database whose users table has both notification columns. *)
Definition doubled_db : db :=
  {[ "users" := Table (users_columns ++ [boolean_col "email_notifications"]) [] 0;
     "tasks" := Table (legacy_tasks_columns DNone) [] 0 ]}.

(** ** Databases between versions *)






(** ** User settings routes: the profile *)

(** [{ username: user.username, email: user.email,
       browser_notifications: user.browser_notifications }], as serialised:
    an undefined field is left out. *)
Definition profile_of (user : obj) : obj :=
  set_opt "username" (user !! "username")
    (set_opt "email" (user !! "email")
       (set_opt "browser_notifications" (user !! "browser_notifications") ∅)).

(** Reading a property of the result of [.first()] throws a TypeError when
    there was no row. *)
Definition profile_response (user : option obj) : M response :=
  match user with
  | Some u => ret (Response 200 (Json (Some (profile_of u))))
  | None => throw "TypeError: Cannot read properties of undefined"
  end.

(** GET /api/me *)
Definition getProfile (user : obj) : db → response * db :=
  try_catch
    (let! self := where_eq "id" (user !! "id") in
     let! row := knex_first "users" [self] in
     profile_response row)
    (Response 500 (Message "Failed to get user profile")).

(** PUT /api/me; knex leaves an undefined value out of the update. *)
Definition updateProfile (user req_body : obj) : db → response * db :=
  try_catch
    (let browser_notifications := req_body !! "browser_notifications" in
     let! self := where_eq "id" (user !! "id") in
     knex_update "users" [self]
       (set_opt "browser_notifications" browser_notifications ∅) ;;
     let! row := knex_first "users" [self] in
     profile_response row)
    (Response 500 (Message "Failed to update settings")).

(** ** Registration *)

(** express-validator's part: how it turns a field value into the string
    its validators and sanitizers see, the [trim] sanitizer, and the
    validators [isLength] and [isEmail]. *)
Class Validator := {
  (** JavaScript's [String(n)] for a number *)
  js_String : Z → string;
  validator_trim : string → string;
  (** [isLength(s, { min })] *)
  validator_isLength : nat → string → bool;
  validator_isEmail : string → bool
}.

(** [bcrypt.hash(password, rounds)]; the salt it draws is an input here. *)
Class BcryptHash := {
  bcrypt_hash : string → Z → string → string
}.

(** express-validator's [toString] of a field value: null and undefined
    give the empty string. *)
Definition field_string `{Validator} (v : option value) : string :=
  match v with
  | Some (VStr s) => s
  | Some (VNum n) => js_String n
  | Some (VBool true) => "true"
  | Some (VBool false) => "false"
  | Some VNull | None => ""
  end.

(** An entry of [errors.array()]. *)
Record validation_error := ValidationError {
  ve_path : string;
  ve_msg : string;
  ve_value : option value
}.

(** [body("username").trim()] writes the trimmed string back into the
    request body. *)
Definition sanitized `{Validator} (req_body : obj) : obj :=
  <["username" := VStr (validator_trim (field_string (req_body !! "username")))]> req_body.

(** The three validation chains, run on the sanitized body; every failing
    chain adds its error. *)
Definition validationResult `{Validator} (req_body : obj) : list validation_error :=
  let b := sanitized req_body in
  (if validator_isLength 3 (field_string (b !! "username")) then []
   else [ValidationError "username" "Username must be at least 3 characters"
           (b !! "username")])
  ++ (if validator_isEmail (field_string (b !! "email")) then []
      else [ValidationError "email" "Invalid email" (b !! "email")])
  ++ (if validator_isLength 6 (field_string (b !! "password")) then []
      else [ValidationError "password" "Password must be at least 6 characters"
              (b !! "password")]).

(** What the register route answers: 400 with
    [{ message: "Invalid input", errors }], or a status and a message. *)
Inductive register_result :=
  | InvalidInput (errors : list validation_error)
  | Replied (r : response).

(** [db(tbl).where(cs1).orWhere(cs2).first()] *)
Definition knex_first_or (tbl : string) (cs1 cs2 : list cond) : M (option obj) :=
  let! t := get_table tbl in
  if conds_known t cs1 && conds_known t cs2
  then ret (head (filter (λ r, row_matches cs1 r ∨ row_matches cs2 r) (tbl_rows t)))
  else throw "no such column".

(** [bcrypt.hash(s, 10)] rejects when [s] is not a string. *)
Definition bcrypt_hash_value `{BcryptHash} (s : option value) (rounds : Z) (salt : string)
  : M string :=
  match s with
  | Some (VStr p) => ret (bcrypt_hash p rounds salt)
  | _ => throw "Illegal arguments"
  end.

(** POST /api/auth/register; [salt] is the randomness of [bcrypt.hash]. *)
Definition register `{Validator} `{BcryptHash} `{Host} (req_body : obj) (salt : string)
    (now : Z) : db → register_result * db :=
  let errors := validationResult req_body in
  if negb (bool_decide (errors = []))
  then λ s, (InvalidInput errors, s)
  else
    let b := sanitized req_body in
    let username := b !! "username" in
    let email := b !! "email" in
    let password := b !! "password" in
    λ s,
      let '(r, s') :=
        try_catch
          (let! by_email := where_eq "email" email in
           let! by_username := where_eq "username" username in
           let! existing := knex_first_or "users" [by_email] [by_username] in
           match existing with
           | Some _ => ret (Response 400 (Message "Email or Username already exists"))
           | None =>
               let! hashed := bcrypt_hash_value password 10 salt in
               knex_insert (CURRENT_TIMESTAMP now) "users"
                 {[ "username" := or_default username VNull;
                    "email" := or_default email VNull;
                    "password" := VStr hashed;
                    "browser_notifications" := VBool true ]} ;;
               ret (Response 201 (Message "Registration successful"))
           end)
          (Response 500 (Message "Registration failed")) s in
      (Replied r, s').

(** Stand-ins to run the route: ASCII strings, an email is a string with an
    at sign and no space, and the hash of [prefix_bcrypt]. *)
Definition is_space (c : ascii) : bool :=
  bool_decide (c ∈ [" "; "009"; "010"; "011"; "012"; "013"]%char).

Fixpoint trim_left (s : string) : string :=
  match s with
  | String c s' => if is_space c then trim_left s' else s
  | EmptyString => EmptyString
  end.

Definition ascii_validator : Validator := {|
  js_String := λ n, NilZero.string_of_int (Z.to_int n);
  validator_trim := λ s, String.rev (trim_left (String.rev (trim_left s)));
  validator_isLength := λ min s, bool_decide (min ≤ String.length s)%nat;
  validator_isEmail := λ s, has_char "@" s && negb (has_char " " s)
|}.

Definition prefix_hash : BcryptHash := {|
  bcrypt_hash := λ p _ _, "$2a$10$" +:+ p
|}.

(** * Properties *)

(** ** Lists *)

Lemma filter_none {A} (P : A → Prop) `{∀ x, Decision (P x)} (l : list A) :
  (∀ x, x ∈ l → ¬ P x) → filter P l = [].
Proof.
  induction l as [|a l IH]; intros Hl; [done|].
  rewrite filter_cons_False by (apply Hl; left).
  apply IH. intros x Hx. apply Hl. by right.
Qed.

Lemma filter_all {A} (P : A → Prop) `{∀ x, Decision (P x)} (l : list A) :
  (∀ x, x ∈ l → P x) → filter P l = l.
Proof.
  induction l as [|a l IH]; intros Hl; [done|].
  rewrite filter_cons_True by (apply Hl; left).
  f_equal. apply IH. intros x Hx. apply Hl. by right.
Qed.

(** ** The query builder on a known table *)

Section knex_facts.
Context (s : db) (tbl : string) (t : table).
Hypothesis Ht : s !! tbl = Some t.

Lemma get_table_ok : get_table tbl s = (Ok t, s).
Proof. unfold get_table. by rewrite Ht. Qed.

Lemma put_table_same : <[tbl := Table (tbl_columns t) (tbl_rows t) (tbl_seq t)]> s = s.
Proof. apply insert_id. by destruct t. Qed.

Lemma knex_select_ok cs :
  conds_known t cs = true →
  knex_select tbl cs s = (Ok (filter (row_matches cs) (tbl_rows t)), s).
Proof. intros Hk. unfold knex_select, bind. by rewrite get_table_ok, Hk. Qed.

Lemma knex_first_ok cs :
  conds_known t cs = true →
  knex_first tbl cs s = (Ok (head (filter (row_matches cs) (tbl_rows t))), s).
Proof. intros Hk. unfold knex_first, bind. by rewrite knex_select_ok. Qed.

Lemma knex_select_ordered_ok cs col :
  conds_known t cs = true → has_col t col = true →
  knex_select_ordered tbl cs col s
  = (Ok (merge_sort (row_le col) (filter (row_matches cs) (tbl_rows t))), s).
Proof.
  intros Hk Hc. unfold knex_select_ordered, bind. by rewrite get_table_ok, Hk, Hc.
Qed.

Lemma knex_del_ok cs :
  conds_known t cs = true →
  knex_del tbl cs s
  = (Ok (Z.of_nat (length (filter (row_matches cs) (tbl_rows t)))),
     <[tbl := Table (tbl_columns t)
                    (filter (λ r, ¬ row_matches cs r) (tbl_rows t))
                    (tbl_seq t)]> s).
Proof. intros Hk. unfold knex_del, bind. by rewrite get_table_ok, Hk. Qed.

(** Deleting where nothing matches changes nothing. *)
Lemma knex_del_none cs :
  conds_known t cs = true →
  (∀ r, r ∈ tbl_rows t → ¬ row_matches cs r) →
  knex_del tbl cs s = (Ok 0, s).
Proof.
  intros Hk Hnone. rewrite knex_del_ok by done.
  rewrite (filter_none (row_matches cs)) by done.
  rewrite (filter_all (λ r, ¬ row_matches cs r)) by done.
  by rewrite put_table_same.
Qed.
End knex_facts.

(** ** Tables with the current columns *)

Lemma shape_col_names (cols cols' : list column) :
  shape cols = shape cols' → col_name <$> cols = col_name <$> cols'.
Proof.
  intros Hs.
  assert (∀ l, col_name <$> shape l = col_name <$> l) as Hn.
  { intros l. unfold shape. rewrite <-list_fmap_compose. by apply list_fmap_ext. }
  by rewrite <-(Hn cols), <-(Hn cols'), Hs.
Qed.

Lemma tasks_ready_inv (s : db) :
  tasks_ready s = true →
  ∃ t, s !! "tasks" = Some t ∧ shape (tbl_columns t) = shape tasks_columns.
Proof.
  unfold tasks_ready. destruct (s !! "tasks") as [t|]; [|done].
  intros H%bool_decide_eq_true. eauto.
Qed.

Lemma users_ready_inv (s : db) :
  users_ready s = true →
  ∃ t, s !! "users" = Some t ∧ shape (tbl_columns t) = shape users_columns.
Proof.
  unfold users_ready. destruct (s !! "users") as [t|]; [|done].
  intros H%bool_decide_eq_true. eauto.
Qed.

Lemma has_col_shape (t : table) (cols : list column) (c : string) :
  shape (tbl_columns t) = shape cols →
  has_col t c = bool_decide (c ∈ col_name <$> cols).
Proof. intros Hs. unfold has_col, col_names. by rewrite (shape_col_names _ _ Hs). Qed.

(** ** Ownership: a task of another user is a task that is not there *)

Section ownership.
Context (s : db) (user : obj) (uid : value) (id : Z).
Hypothesis Hready : tasks_ready s = true.
Hypothesis Huser : user !! "id" = Some uid.
Hypothesis Hnone : ∀ r, r ∈ rows_of "tasks" s → ¬ task_of uid id r.

Lemma not_owned_no_match (t : table) :
  s !! "tasks" = Some t →
  ∀ r, r ∈ tbl_rows t → ¬ row_matches [CEq "id" (VNum id); CEq "user_id" uid] r.
Proof.
  intros Ht r Hr Hm. apply (Hnone r).
  - unfold rows_of. by rewrite Ht.
  - unfold row_matches in Hm.
    apply Forall_cons in Hm as [Hid Hm]. apply Forall_cons in Hm as [Huid _].
    by split.
Qed.

Lemma updateTask_not_owned (req_body : obj) :
  updateTask user id req_body s = (task_not_found, s).
Proof.
  destruct (tasks_ready_inv s Hready) as (t & Ht & Hshape).
  unfold updateTask, try_catch, bind, where_eq. rewrite Huser. simpl.
  rewrite (knex_first_ok s "tasks" t Ht).
  - rewrite filter_none; [done|]. by apply not_owned_no_match.
  - unfold conds_known. simpl. by rewrite !(has_col_shape t tasks_columns).
Qed.

Lemma deleteTask_not_owned : deleteTask user id s = (task_not_found, s).
Proof.
  destruct (tasks_ready_inv s Hready) as (t & Ht & Hshape).
  unfold deleteTask, try_catch, bind, where_eq. rewrite Huser. simpl.
  rewrite (knex_del_none s "tasks" t Ht); [done| |by apply not_owned_no_match].
  unfold conds_known. simpl. by rewrite !(has_col_shape t tasks_columns).
Qed.
End ownership.

(** C1: for a caller with id [uid] and a task id [id], if no stored task
    has id [id] and owner [uid] -- because no task has that id or because
    the task belongs to someone else -- then [updateTask] and [deleteTask]
    both answer 404 "Task not found" and leave the database as it was: the
    answer does not tell the two cases apart. *)
Theorem not_owned_is_not_found (s : db) (user : obj) (uid : value) (id : Z) (req_body : obj) :
  tasks_ready s = true →
  user !! "id" = Some uid →
  (∀ r, r ∈ rows_of "tasks" s → ¬ task_of uid id r) →
  updateTask user id req_body s = (Response 404 (Message "Task not found"), s)
  ∧ deleteTask user id s = (Response 404 (Message "Task not found"), s).
Proof.
  intros Hready Huser Hnone. split.
  - by apply (updateTask_not_owned s user uid id).
  - by apply (deleteTask_not_owned s user uid id).
Qed.

(** ** Account deletion is all or nothing *)

Lemma row_matches_single (col : string) (v : value) (r : obj) :
  row_matches [CEq col v] r ↔ r !! col = Some (sql_bind v).
Proof.
  unfold row_matches. split.
  - by intros [H _]%Forall_cons.
  - intros H. by repeat constructor.
Qed.

Lemma filter_row_matches_single (col : string) (v : value) (rows : list obj) :
  filter (row_matches [CEq col v]) rows = filter (λ r, r !! col = Some (sql_bind v)) rows
  ∧ filter (λ r, ¬ row_matches [CEq col v] r) rows
    = filter (λ r, r !! col ≠ Some (sql_bind v)) rows.
Proof.
  split; apply list_filter_iff; intros r; by rewrite row_matches_single.
Qed.

(** C3: [deleteAccount] is atomic.  When no user row has the caller's id,
    the request fails with 500 "Failed to delete account" and the database
    after it is the database before it: the caller's tasks, deleted inside
    the transaction, are all still there.  When the user row exists, the
    request succeeds and removes exactly the caller's tasks and the caller's
    user row. *)
Theorem delete_account_atomic (s : db) (user : obj) (uid : value) :
  tasks_ready s = true →
  users_ready s = true →
  user !! "id" = Some uid →
  let is_user (r : obj) := r !! "id" = Some (sql_bind uid) in
  let owned (r : obj) := r !! "user_id" = Some (sql_bind uid) in
  ((∀ r, r ∈ rows_of "users" s → ¬ is_user r) →
   deleteAccount user s = (Response 500 (Message "Failed to delete account"), s))
  ∧ ((∃ r, r ∈ rows_of "users" s ∧ is_user r) →
     ∃ s', deleteAccount user s
           = (Response 200 (Message "Account and all data deleted successfully"), s')
           ∧ rows_of "tasks" s' = filter (λ r, ¬ owned r) (rows_of "tasks" s)
           ∧ rows_of "users" s' = filter (λ r, ¬ is_user r) (rows_of "users" s)).
Proof.
  intros Htasks Husers Huser is_user owned.
  destruct (tasks_ready_inv s Htasks) as (t & Ht & Hshape).
  destruct (users_ready_inv s Husers) as (u & Hu & Hushape).
  set (s1 := <["tasks" := Table (tbl_columns t)
                  (filter (λ r, ¬ row_matches [CEq "user_id" uid] r) (tbl_rows t))
                  (tbl_seq t)]> s).
  assert (Hu1 : s1 !! "users" = Some u) by (unfold s1; by rewrite lookup_insert_ne).
  assert (Hdel1 : knex_del "tasks" [CEq "user_id" uid] s
                  = (Ok (Z.of_nat (length (filter (row_matches [CEq "user_id" uid])
                                                  (tbl_rows t)))), s1)).
  { apply (knex_del_ok s "tasks" t Ht).
    unfold conds_known. simpl. by rewrite (has_col_shape t tasks_columns). }
  assert (Hdel2 : knex_del "users" [CEq "id" uid] s1
                  = (Ok (Z.of_nat (length (filter (row_matches [CEq "id" uid])
                                                  (tbl_rows u)))),
                     <["users" := Table (tbl_columns u)
                         (filter (λ r, ¬ row_matches [CEq "id" uid] r) (tbl_rows u))
                         (tbl_seq u)]> s1)).
  { apply (knex_del_ok s1 "users" u Hu1).
    unfold conds_known. simpl. by rewrite (has_col_shape u users_columns). }
  assert (Hrows : rows_of "users" s = tbl_rows u) by (unfold rows_of; by rewrite Hu).
  unfold deleteAccount, try_catch, bind, transaction, where_eq.
  rewrite Huser. simpl. rewrite Hdel1, Hdel2. rewrite Hrows. split.
  - intros Hnone.
    rewrite (filter_none (row_matches [CEq "id" uid])); [done|].
    intros r Hr Hm%row_matches_single. by apply (Hnone r).
  - intros (r & Hr & Hm).
    destruct (filter (row_matches [CEq "id" uid]) (tbl_rows u)) as [|r0 l] eqn:Hf.
    { exfalso. apply (filter_nil_not_elem_of _ _ r Hf); [|done].
      by apply row_matches_single. }
    simpl. eexists. split; [reflexivity|]. unfold rows_of.
    rewrite lookup_insert_ne, lookup_insert_eq by done.
    unfold s1. rewrite lookup_insert_eq, Ht. simpl.
    split; apply filter_row_matches_single.
Qed.

(** ** Login does not tell whether an email is registered *)

(** With string passwords the route keeps the secret: a login with an email
    no user row has, and a login with a registered email and a password
    that does not verify against the stored hash, get the same answer, 401
    "Incorrect email or password", and leave the database as it was. *)
Lemma login_wrong_password_401 `{Jwt} `{Bcrypt} (secret : string) (s : db)
    (body1 body2 : obj) (email1 password1 email2 password2 : string) (now1 now2 : Z) :
  users_ready s = true →
  body1 !! "email" = Some (VStr email1) →
  body1 !! "password" = Some (VStr password1) →
  body2 !! "email" = Some (VStr email2) →
  body2 !! "password" = Some (VStr password2) →
  (* email1 is not registered *)
  (∀ r, r ∈ rows_of "users" s → r !! "email" ≠ Some (VStr email1)) →
  (* email2 is registered, and password2 is wrong for it *)
  (∃ r, r ∈ rows_of "users" s ∧ r !! "email" = Some (VStr email2)) →
  (∀ r, r ∈ rows_of "users" s → r !! "email" = Some (VStr email2) →
        ∃ hash, r !! "password" = Some (VStr hash) ∧ bcrypt_verify password2 hash = false) →
  login secret body1 now1 s = (Response 401 (Message "Incorrect email or password"), s)
  ∧ login secret body2 now2 s = login secret body1 now1 s.
Proof.
  intros Husers He1 Hp1 He2 Hp2 Hunreg Hreg Hwrong.
  destruct (users_ready_inv s Husers) as (u & Hu & Hushape).
  assert (Hrows : rows_of "users" s = tbl_rows u) by (unfold rows_of; by rewrite Hu).
  rewrite Hrows in *.
  assert (Hknown : ∀ v, conds_known u [CEq "email" v] = true).
  { intros v. unfold conds_known. simpl. by rewrite (has_col_shape u users_columns). }
  assert (H1 : login secret body1 now1 s = (incorrect_credentials, s)).
  { unfold login, try_catch, bind, where_eq. rewrite He1. simpl.
    rewrite (knex_first_ok s "users" u Hu) by apply Hknown.
    rewrite filter_none; [done|].
    intros r Hr Hm%row_matches_single. by apply (Hunreg r). }
  split; [exact H1|]. rewrite H1.
  unfold login, try_catch, bind, where_eq. rewrite He2. simpl.
  rewrite (knex_first_ok s "users" u Hu) by apply Hknown.
  destruct (filter (row_matches [CEq "email" (VStr email2)]) (tbl_rows u))
    as [|r0 l] eqn:Hf.
  { destruct Hreg as (r & Hr & Hm). exfalso.
    apply (filter_nil_not_elem_of _ _ r Hf); [|done]. by apply row_matches_single. }
  simpl.
  assert (r0 ∈ filter (row_matches [CEq "email" (VStr email2)]) (tbl_rows u)) as Hin
    by (rewrite Hf; left).
  apply list_elem_of_filter in Hin as [Hm%row_matches_single Hin].
  destruct (Hwrong r0 Hin Hm) as (hash & Hhash & Hv).
  unfold bcrypt_compare. rewrite Hp2, Hhash. simpl. by rewrite Hv.
Qed.

(** ** The example state *)

Lemma example_tasks :
  rows_of "tasks" example_db
  = [ task_row 1 "write report" "pending" (VStr "2024-01-02") false 1;
      task_row 2 "pay rent" "completed" (VStr "2024-01-02") true 1;
      task_row 3 "buy milk" "pending" (VStr "2024-01-01") false 2;
      task_row 4 "left over" "pending" VNull false 3 ].
Proof.
  unfold rows_of, example_db.
  by rewrite lookup_insert_ne, lookup_singleton_eq.
Qed.

Lemma example_users :
  rows_of "users" example_db
  = [ user_row 1 "alice" "alice@example.org" "$2a$10$wonderland";
      user_row 2 "bob" "bob@example.org" "$2a$10$builder" ].
Proof. unfold rows_of, example_db. by rewrite lookup_insert_eq. Qed.

(** One goal for each element of the list that [H] says a row is in. *)
Ltac each_row H :=
  repeat (apply elem_of_cons in H as [->|H]); [..| by apply elem_of_nil in H].

(** C1, at a concrete state: task 3 is bob's, and alice gets the answer
    she would get for a task that does not exist. *)
Lemma not_owned_is_not_found_witness :
  updateTask alice 3 {[ "title" := VStr "mine now" ]} example_db
    = (Response 404 (Message "Task not found"), example_db)
  ∧ deleteTask alice 3 example_db
    = (Response 404 (Message "Task not found"), example_db).
Proof.
  apply (not_owned_is_not_found example_db alice (VNum 1) 3);
    [reflexivity | reflexivity |].
  intros r Hr [Hid Huid]. rewrite example_tasks in Hr.
  each_row Hr; vm_compute in Hid; try discriminate Hid;
    vm_compute in Huid; discriminate Huid.
Defined.

(** C3, at a concrete state: carol has a task but no user row, and her
    request fails without touching the task; alice's request succeeds. *)
Lemma delete_account_atomic_witness :
  deleteAccount carol example_db
    = (Response 500 (Message "Failed to delete account"), example_db)
  ∧ ∃ s', deleteAccount alice example_db
          = (Response 200 (Message "Account and all data deleted successfully"), s')
          ∧ rows_of "tasks" s'
            = filter (λ r, ¬ r !! "user_id" = Some (VNum 1)) (rows_of "tasks" example_db)
          ∧ rows_of "users" s'
            = filter (λ r, ¬ r !! "id" = Some (VNum 1)) (rows_of "users" example_db).
Proof.
  split.
  - apply (delete_account_atomic example_db carol (VNum 3));
      [reflexivity | reflexivity | reflexivity |].
    intros r Hr Hid. rewrite example_users in Hr.
    each_row Hr; vm_compute in Hid; discriminate Hid.
  - apply (delete_account_atomic example_db alice (VNum 1));
      [reflexivity | reflexivity | reflexivity |].
    exists (user_row 1 "alice" "alice@example.org" "$2a$10$wonderland").
    split; [rewrite example_users; left | reflexivity].
Defined.

(** With a password that is not a string the answers differ. *)
Lemma users_email_known (u : table) (v : value) :
  shape (tbl_columns u) = shape users_columns → conds_known u [CEq "email" v] = true.
Proof.
  intros Hshape. unfold conds_known. simpl. by rewrite (has_col_shape u users_columns).
Qed.

(** C5: the login route tells a registered email from one that is not.
    When the password of the request is not a string -- a number, a
    boolean, null, or no password at all -- a login with an email no user
    row has is answered 401 "Incorrect email or password" (the password is
    not looked at), and a login with a registered email is answered 500
    "Login failed": [bcrypt.compare] rejects the argument and the handler's
    [catch] answers.  Neither changes the database. *)
Theorem login_tells_registered_email `{Jwt} `{Bcrypt} (secret : string) (s : db)
    (body1 body2 : obj) (email1 email2 : string) (now1 now2 : Z) :
  users_ready s = true →
  body1 !! "email" = Some (VStr email1) →
  body2 !! "email" = Some (VStr email2) →
  (* email1 is not registered *)
  (∀ r, r ∈ rows_of "users" s → r !! "email" ≠ Some (VStr email1)) →
  (* email2 is registered *)
  (∃ r, r ∈ rows_of "users" s ∧ r !! "email" = Some (VStr email2)) →
  (* the password of the second request is not a string *)
  (∀ x, body2 !! "password" ≠ Some (VStr x)) →
  login secret body1 now1 s = (Response 401 (Message "Incorrect email or password"), s)
  ∧ login secret body2 now2 s = (Response 500 (Message "Login failed"), s).
Proof.
  intros Husers He1 He2 Hunreg Hreg Hp2.
  destruct (users_ready_inv s Husers) as (u & Hu & Hushape).
  assert (Hrows : rows_of "users" s = tbl_rows u) by (unfold rows_of; by rewrite Hu).
  rewrite Hrows in *. split.
  - unfold login, try_catch, bind, where_eq. rewrite He1. cbn [ret].
    rewrite (knex_first_ok s "users" u Hu) by (by apply users_email_known).
    rewrite filter_none; [done|].
    intros r Hr Hm%row_matches_single. by apply (Hunreg r).
  - unfold login, try_catch, bind, where_eq. rewrite He2. cbn [ret].
    rewrite (knex_first_ok s "users" u Hu) by (by apply users_email_known).
    destruct (filter (row_matches [CEq "email" (VStr email2)]) (tbl_rows u))
      as [|r0 l] eqn:Hf.
    { destruct Hreg as (r & Hr & Hm). exfalso.
      apply (filter_nil_not_elem_of _ _ r Hf); [|done]. by apply row_matches_single. }
    cbn [head]. unfold bcrypt_compare.
    destruct (body2 !! "password") as [[| | |x]|] eqn:Hp; try done.
    by destruct (Hp2 x).
Qed.

(** C5, at a concrete state: the same numeric password with an unknown
    email and with alice's. *)
Lemma login_tells_registered_email_witness :
  let nobody : obj := {[ "email" := VStr "nobody@example.org"; "password" := VNum 12345 ]} in
  let known : obj := {[ "email" := VStr "alice@example.org"; "password" := VNum 12345 ]} in
  @login plain_jwt prefix_bcrypt "k" nobody 0 example_db
    = (Response 401 (Message "Incorrect email or password"), example_db)
  ∧ @login plain_jwt prefix_bcrypt "k" known 0 example_db
    = (Response 500 (Message "Login failed"), example_db).
Proof.
  apply (@login_tells_registered_email plain_jwt prefix_bcrypt "k" example_db _ _
           "nobody@example.org" "alice@example.org" 0 0).
  - reflexivity.
  - reflexivity.
  - reflexivity.
  - intros r Hr Hemail. rewrite example_users in Hr.
    each_row Hr; vm_compute in Hemail; discriminate Hemail.
  - exists (user_row 1 "alice" "alice@example.org" "$2a$10$wonderland").
    split; [rewrite example_users; left | reflexivity].
  - intros x Hx. vm_compute in Hx. discriminate Hx.
Defined.

(** ** Creating a task *)

Lemma shape_zip (cols cols' : list column) :
  shape cols = shape cols' →
  cols = zip_with defaultTo (col_default <$> cols) cols'.
Proof.
  revert cols'. induction cols as [|c cols IH]; intros [|c' cols'] Hs; try done.
  unfold shape in Hs. simpl in Hs. injection Hs as Hc Hs.
  simpl. f_equal; [|by apply IH].
  destruct c, c'. unfold defaultTo in *. simpl in *. congruence.
Qed.

(** The columns of a ready [tasks] table, with whatever defaults. *)
Lemma tasks_shape_inv (cols : list column) :
  shape cols = shape tasks_columns →
  ∃ d1 d2 d3 d4 d5 d6 d7 d8 d9,
    cols = [ Column "id" TInteger true false true d1 None;
             Column "title" TString false false true d2 None;
             Column "description" TText false false false d3 None;
             Column "priority" TString false false true d4 None;
             Column "status" TString false false true d5 None;
             Column "dueDate" TString false false false d6 None;
             Column "completed" TBoolean false false false d7 None;
             Column "user_id" TInteger false false false d8 (Some ("id", "users"));
             Column "created_at" TDatetime false false false d9 None ].
Proof.
  intros Hs. rewrite (shape_zip _ _ Hs).
  assert (length (col_default <$> cols) = 9%nat) as Hlen.
  { rewrite length_fmap. apply (f_equal length) in Hs. unfold shape in Hs.
    by rewrite !length_fmap in Hs. }
  destruct (col_default <$> cols) as [|d1 [|d2 [|d3 [|d4 [|d5 [|d6 [|d7 [|d8 [|d9 [|]]]]]]]]]];
    try discriminate Hlen.
  by exists d1, d2, d3, d4, d5, d6, d7, d8, d9.
Qed.

Lemma foldr_max_ge (l : list Z) (z : Z) : z ≤ foldr Z.max z l.
Proof. induction l; simpl; lia. Qed.

Lemma foldr_max_elem (l : list Z) (z n : Z) : n ∈ l → n ≤ foldr Z.max z l.
Proof.
  induction l as [|a l IH]; [by intros ?%elem_of_nil|].
  intros [->|Hin]%elem_of_cons; simpl; [lia|]. specialize (IH Hin). lia.
Qed.

(** The id AUTOINCREMENT hands out is the id of no row. *)
Lemma next_id_fresh (t : table) (r : obj) :
  r ∈ tbl_rows t → r !! "id" ≠ Some (VNum (next_id t)).
Proof.
  intros Hr Hid.
  assert (next_id t ∈ row_ids (tbl_rows t)) as Hin.
  { unfold row_ids. apply list_elem_of_omap. exists r. split; [done|]. by rewrite Hid. }
  apply (foldr_max_elem _ (tbl_seq t)) in Hin. unfold next_id in Hin. lia.
Qed.
Lemma sql_bind_null (v : value) : sql_bind v = VNull → v = VNull.
Proof. by destruct v. Qed.

Lemma truthy_not_null (v : option value) : truthy v = true → is_null (sql_bind <$> v) = false.
Proof. by destruct v as [[]|]. Qed.

Section create.
Context `{Host} (s : db) (t : table) (user req_body : obj) (now : Z).
Hypothesis Ht : s !! "tasks" = Some t.
Hypothesis Hshape : shape (tbl_columns t) = shape tasks_columns.




Hypothesis Htitle : truthy (req_body !! "title") = true.
Hypothesis Hpriority : req_body !! "priority" ≠ Some VNull.
Hypothesis Hstatus : req_body !! "status" ≠ Some VNull.


End create.



(** ** What a column stores *)

Lemma column_type_shape (cols cols' : list column) (k : string) :
  shape cols = shape cols' → column_type cols k = column_type cols' k.
Proof.
  assert (∀ l, column_type (shape l) k = column_type l k) as Hs.
  { unfold shape. induction l as [|c l IH]; [done|].
    rewrite fmap_cons. cbn [column_type]. by rewrite IH. }
  intros Heq. by rewrite <-(Hs cols), <-(Hs cols'), Heq.
Qed.

Lemma stored_in_shape (cols cols' : list column) (k : string) (v : value) :
  shape cols = shape cols' → stored_in cols k v = stored_in cols' k v.
Proof. intros Hs. unfold stored_in. by rewrite (column_type_shape _ _ k Hs). Qed.

Lemma stored_null (ty : coltype) (v : value) : stored ty v = VNull ↔ v = VNull.
Proof.
  unfold stored. destruct (col_affinity ty), v as [| | |x]; try done;
    by destruct (numeric_reading x).
Qed.

Lemma stored_in_null (cols : list column) (k : string) (v : value) :
  stored_in cols k v = VNull ↔ v = VNull.
Proof.
  unfold stored_in. destruct (column_type cols k).
  - rewrite stored_null. by destruct v.
  - by destruct v.
Qed.

Lemma stored_text (ty : coltype) (x : string) :
  col_affinity ty = AffText → stored ty (VStr x) = VStr x.
Proof. unfold stored. by intros ->. Qed.

Lemma stored_bool (ty : coltype) (b : bool) :
  col_affinity ty ≠ AffText → stored ty (sql_bool b) = sql_bool b.
Proof. unfold stored. by destruct (col_affinity ty), b. Qed.



Lemma apply_update_lookup (cols : list column) (u r : obj) (k : string) :
  apply_update cols u r !! k
  = match u !! k with Some v => Some (stored_in cols k v) | None => r !! k end.
Proof.
  unfold apply_update. rewrite lookup_union, map_lookup_imap.
  destruct (u !! k); simpl; [by destruct (r !! k)|]. by rewrite (left_id None _).
Qed.


Lemma rowid_not_written (cols : list column) (u : obj) :
  (∀ c, c ∈ cols → col_increments c = true → u !! col_name c = None) →
  rowid_column (written cols u) = None.
Proof.
  unfold written. induction cols as [|c cols IH]; intros Hc; [done|].
  assert (rowid_column (filter (λ c, is_Some (u !! col_name c)) cols) = None) as IH'.
  { apply IH. intros c' Hc'. apply Hc. by right. }
  destruct (decide (is_Some (u !! col_name c))) as [Hs|Hs].
  - rewrite filter_cons_True by done. cbn [rowid_column].
    destruct (col_increments c) eqn:Hi; [|done].
    rewrite (Hc c) in Hs by (done || left). by destruct Hs.
  - by rewrite filter_cons_False.
Qed.

(** ** Updating a task *)

Lemma knex_update_cases (s : db) (tbl : string) (t : table) (cs : list cond) (u : obj) :
  s !! tbl = Some t →
  (∃ e, knex_update tbl cs u s = (Throw e, s))
  ∨ (∃ n, knex_update tbl cs u s
          = (Ok n, <[tbl := Table (tbl_columns t)
                              (in_rowid_order (written (tbl_columns t) u)
                                 (update_rows (tbl_columns t) cs u (tbl_rows t)))
                              (tbl_seq t)]> s)).
Proof.
  intros Ht. unfold knex_update.
  case_bool_decide; [left; by eexists|].
  unfold bind. rewrite (get_table_ok s tbl t Ht).
  destruct (negb _); [left; by eexists|].
  cbv zeta. destruct (forallb _ _); [right; by eexists|left; by eexists].
Qed.

Lemma tasks_rowid_not_written (cols : list column) (u : obj) :
  shape cols = shape tasks_columns →
  u !! "id" = None →
  rowid_column (written cols u) = None.
Proof.
  intros Hshape Hid. apply rowid_not_written. intros c Hc Hinc.
  destruct (tasks_shape_inv _ Hshape) as (d1&d2&d3&d4&d5&d6&d7&d8&d9&Hcols).
  rewrite Hcols in Hc. apply list_elem_of_In in Hc. simpl in Hc.
  destruct Hc as [<-|[<-|[<-|[<-|[<-|[<-|[<-|[<-|[<-|[]]]]]]]]]]; done.
Qed.


Lemma with_completed_other (p : obj) (k : string) :
  k ≠ "completed" → with_completed p !! k = p !! k.
Proof.
  intros Hk. unfold with_completed.
  destruct (strict_eq_str _ _); [by rewrite lookup_insert_ne|].
  destruct (truthy _); [by rewrite lookup_insert_ne|done].
Qed.


Lemma knex_update_ok (s : db) (tbl : string) (t : table) (cs : list cond) (u : obj) :
  s !! tbl = Some t →
  u ≠ ∅ →
  conds_known t cs = true →
  keys_known t u = true →
  rowid_column (written (tbl_columns t) u) = None →
  (∀ r c, r ∈ tbl_rows t → row_matches cs r → c ∈ tbl_columns t →
          is_Some (u !! col_name c) →
          row_ok [c] (update_rows (tbl_columns t) cs u (tbl_rows t))
                 (apply_update (tbl_columns t) u r) = true) →
  knex_update tbl cs u s
  = (Ok (Z.of_nat (length (filter (row_matches cs) (tbl_rows t)))),
     <[tbl := Table (tbl_columns t) (update_rows (tbl_columns t) cs u (tbl_rows t))
                    (tbl_seq t)]> s).
Proof.
  intros Ht Hne Hcs Hks Hrowid Hok. unfold knex_update.
  rewrite bool_decide_eq_false_2 by done.
  unfold bind. rewrite (get_table_ok s tbl t Ht), Hcs, Hks. cbn [andb negb]. cbv zeta.
  unfold in_rowid_order. rewrite Hrowid.
  rewrite length_fmap.
  replace (forallb _ _) with true; [done|]. symmetry.
  apply forallb_forall. intros r' Hr'%list_elem_of_In.
  apply list_elem_of_fmap in Hr' as (r & -> & [Hm Hr]%list_elem_of_filter).
  unfold row_ok. apply forallb_forall. intros c Hc%list_elem_of_In.
  apply list_elem_of_filter in Hc as [Hsome Hc].
  specialize (Hok r c Hr Hm Hc Hsome). unfold row_ok in Hok. simpl in Hok.
  by rewrite andb_true_r in Hok.
Qed.

Lemma plain_update_keys (p : obj) (k : string) :
  plain_update p → is_Some (with_completed p !! k) →
  k ∈ ["title"; "description"; "priority"; "status"; "dueDate"; "completed"].
Proof.
  intros (Hkeys & _) [v Hv].
  destruct (decide (k = "completed")) as [->|Hk]; [set_solver|].
  rewrite with_completed_other in Hv by done. by apply (Hkeys k v).
Qed.

Lemma plain_update_no_key (p : obj) (k : string) :
  plain_update p → k ∈ ["id"; "user_id"; "created_at"] → with_completed p !! k = None.
Proof.
  intros Hplain Hk. destruct (with_completed p !! k) eqn:E; [|done].
  assert (Hk' : k ∈ ["title"; "description"; "priority"; "status"; "dueDate";
                     "completed"])
    by (apply (plain_update_keys p); [done | by eexists]).
  exfalso. repeat (apply elem_of_cons in Hk as [->|Hk]);
    try (repeat (apply elem_of_cons in Hk' as [Hk'|Hk']; [discriminate Hk'|]);
         by apply elem_of_nil in Hk').
  by apply elem_of_nil in Hk.
Qed.

Lemma with_completed_nonempty (p : obj) : p ≠ ∅ → with_completed p ≠ ∅.
Proof.
  intros Hp. unfold with_completed.
  destruct (strict_eq_str _ _); [apply insert_non_empty|].
  destruct (truthy _); [apply insert_non_empty|done].
Qed.

Lemma is_null_stored (cols : list column) (k : string) (v : value) :
  v ≠ VNull → is_null (Some (stored_in cols k v)) = false.
Proof.
  intros Hv. destruct (stored_in cols k v) eqn:E; try done.
  by apply stored_in_null in E.
Qed.

Section update_plain.
Context (s : db) (t : table) (user : obj) (uid : value) (id : Z) (p : obj).
Hypothesis Ht : s !! "tasks" = Some t.
Hypothesis Hshape : shape (tbl_columns t) = shape tasks_columns.
Hypothesis Huser : user !! "id" = Some uid.
Hypothesis Hplain : plain_update p.

Lemma plain_update_known : keys_known t (with_completed p) = true.
Proof.
  unfold keys_known. apply bool_decide_eq_true. intros k v Hv.
  unfold col_names. rewrite (shape_col_names _ _ Hshape).
  assert (k ∈ ["title"; "description"; "priority"; "status"; "dueDate"; "completed"])
    as Hk by (apply (plain_update_keys p); [done | by exists v]).
  repeat (apply elem_of_cons in Hk as [->|Hk]);
    try (apply list_elem_of_In; simpl; tauto).
  by apply elem_of_nil in Hk.
Qed.

Lemma plain_update_rows_ok (r : obj) (c : column) (rows : list obj) :
  c ∈ tbl_columns t →
  is_Some (with_completed p !! col_name c) →
  row_ok [c] rows (apply_update (tbl_columns t) (with_completed p) r) = true.
Proof.
  intros Hc Hsome.
  pose proof (plain_update_keys p (col_name c) Hplain Hsome) as Hk.
  destruct Hplain as (_ & _ & Hti & Hpr & Hst).
  destruct (tasks_shape_inv _ Hshape) as (d1&d2&d3&d4&d5&d6&d7&d8&d9&Hcols).
  rewrite Hcols in Hc. destruct Hsome as [v Hv].
  unfold row_ok. cbn [forallb]. rewrite apply_update_lookup, Hv.
  apply list_elem_of_In in Hc. simpl in Hc.
  destruct Hc as [<-|[<-|[<-|[<-|[<-|[<-|[<-|[<-|[<-|[]]]]]]]]]];
    cbn [col_name col_notnull col_increments col_unique negb orb andb] in *;
    try done;
    try (exfalso; repeat (apply elem_of_cons in Hk as [Hk|Hk]; [discriminate Hk|]);
         by apply elem_of_nil in Hk).
  - rewrite with_completed_other in Hv by done.
    rewrite is_null_stored; [done|]. intros ->. by apply Hti.
  - rewrite with_completed_other in Hv by done.
    rewrite is_null_stored; [done|]. intros ->. by apply Hpr.
  - rewrite with_completed_other in Hv by done.
    rewrite is_null_stored; [done|]. intros ->. by apply Hst.
Qed.
End update_plain.

Lemma filter_update_rows (cols : list column) (id : Z) (u : obj) (rows : list obj) :
  u !! "id" = None →
  filter (row_matches [CEq "id" (VNum id)]) (update_rows cols [CEq "id" (VNum id)] u rows)
  = apply_update cols u <$> filter (row_matches [CEq "id" (VNum id)]) rows.
Proof.
  intros Hu. unfold update_rows.
  induction rows as [|r rows IH]; [done|].
  rewrite fmap_cons. destruct (decide (row_matches [CEq "id" (VNum id)] r)) as [Hm|Hm].
  - rewrite !filter_cons_True, fmap_cons, IH; [done|done|].
    apply row_matches_single. rewrite apply_update_lookup, Hu.
    by apply row_matches_single in Hm.
  - by rewrite !filter_cons_False, IH.
Qed.

Section update_plain_ok.
Context (s : db) (t : table) (user : obj) (uid : value) (id : Z) (p : obj) (r0 : obj).
Hypothesis Ht : s !! "tasks" = Some t.
Hypothesis Hshape : shape (tbl_columns t) = shape tasks_columns.
Hypothesis Huser : user !! "id" = Some uid.
Hypothesis Hplain : plain_update p.
Hypothesis Hr0 : r0 ∈ tbl_rows t.
Hypothesis Howned : task_of uid id r0.

Lemma updateTask_plain_ok :
  ∃ r, r ∈ tbl_rows t ∧ r !! "id" = Some (VNum id)
       ∧ updateTask user id p s
         = (Response 200 (Json (Some (apply_update (tbl_columns t) (with_completed p) r))),
            <["tasks" := Table (tbl_columns t)
                           (update_rows (tbl_columns t) [CEq "id" (VNum id)]
                                        (with_completed p) (tbl_rows t))
                           (tbl_seq t)]> s).
Proof.
  assert (Hknown : ∀ cs, forallb (λ c, bool_decide (cond_col c ∈ ["id"; "user_id"])) cs = true →
                         conds_known t cs = true).
  { intros cs Hcs. unfold conds_known. apply forallb_forall. intros c Hc.
    rewrite forallb_forall in Hcs. specialize (Hcs c Hc).
    apply bool_decide_eq_true in Hcs. rewrite (has_col_shape t tasks_columns) by done.
    apply bool_decide_eq_true.
    repeat (apply elem_of_cons in Hcs as [->|Hcs]);
      try (apply list_elem_of_In; simpl; tauto).
    by apply elem_of_nil in Hcs. }
  assert (Hid0 : row_matches [CEq "id" (VNum id)] r0).
  { apply row_matches_single. apply Howned. }
  assert (Hnoid : with_completed p !! "id" = None).
  { apply plain_update_no_key; [done|]. apply list_elem_of_In. simpl. tauto. }
  unfold updateTask, try_catch, bind, where_eq. rewrite Huser. cbn [ret].
  rewrite (knex_first_ok s "tasks" t Ht) by (by apply Hknown).
  destruct (filter (row_matches [CEq "id" (VNum id); CEq "user_id" uid]) (tbl_rows t))
    as [|r1 l1] eqn:Hf1.
  { exfalso. apply (filter_nil_not_elem_of _ _ r0 Hf1); [|done].
    destruct Howned. by repeat constructor. }
  cbn [head].
  rewrite (knex_update_ok s "tasks" t); try done.
  - set (t' := Table _ _ _). set (s' := <["tasks" := t']> s).
    assert (Ht' : s' !! "tasks" = Some t') by apply lookup_insert_eq.
    rewrite (knex_first_ok s' "tasks" t' Ht').
    + unfold t'. cbn [tbl_rows]. rewrite filter_update_rows by done.
      destruct (filter (row_matches [CEq "id" (VNum id)]) (tbl_rows t))
        as [|r l] eqn:Hf.
      { exfalso. by apply (filter_nil_not_elem_of _ _ r0 Hf). }
      exists r.
      assert (r ∈ filter (row_matches [CEq "id" (VNum id)]) (tbl_rows t)) as Hin
        by (rewrite Hf; left).
      apply list_elem_of_filter in Hin as [Hm%row_matches_single Hin].
      done.
    + unfold conds_known. simpl. unfold has_col, col_names, t'. cbn [tbl_columns].
      by rewrite (shape_col_names _ _ Hshape).
  - apply with_completed_nonempty, Hplain.
  - by apply Hknown.
  - by apply plain_update_known.
  - by apply tasks_rowid_not_written.
  - intros r c _ _ Hc Hsome. by apply (plain_update_rows_ok t).
Qed.
End update_plain_ok.

Lemma elem_of_update_rows (cols : list column) (cs : list cond) (u : obj)
    (rows : list obj) (r' : obj) :
  r' ∈ update_rows cols cs u rows ↔
  ∃ r, r ∈ rows ∧ r' = if decide (row_matches cs r) then apply_update cols u r else r.
Proof.
  unfold update_rows. rewrite list_elem_of_fmap. split.
  - intros (r & -> & Hr). by exists r.
  - intros (r & Hr & ->). by exists r.
Qed.



(** ** [completed] follows [status] *)



(** * Further properties of the server *)




Lemma example_db_tasks_ready : tasks_ready example_db = true.
Proof. reflexivity. Qed.















(** X3: the consistency is not kept by an update that carries [completed]
    without [status].  If the caller owns a task whose status is not
    "completed", then after [updateTask] with the payload
    [{ completed: true }] some stored task has [completed = 1] and a status
    other than "completed". *)
Theorem completed_only_update_breaks_consistency (s : db) (user : obj) (uid : value)
    (id : Z) (r0 : obj) :
  tasks_ready s = true →
  user !! "id" = Some uid →
  r0 ∈ rows_of "tasks" s →
  task_of uid id r0 →
  r0 !! "status" ≠ Some (VStr "completed") →
  let s' := (updateTask user id {[ "completed" := VBool true ]} s).2 in
  (∃ r, r ∈ rows_of "tasks" s'
        ∧ r !! "completed" = Some (sql_bool true)
        ∧ r !! "status" = r0 !! "status")
  ∧ ¬ consistent s'.
Proof.
  intros Hready Huser Hr0 Howned Hstatus s'.
  destruct (tasks_ready_inv s Hready) as (t & Ht & Hshape).
  unfold rows_of in Hr0. rewrite Ht in Hr0.
  set (p := ({[ "completed" := VBool true ]} : obj)) in *.
  assert (Hplain : plain_update p).
  { split.
    - apply map_Forall_singleton. apply list_elem_of_In. simpl. tauto.
    - repeat split; (done || apply insert_non_empty). }
  assert (Hp : with_completed p = p) by done.
  destruct (updateTask_plain_ok s t user uid id p r0 Ht Hshape Huser Hplain Hr0 Howned)
    as (r & _ & _ & E).
  assert (Hin : apply_update (tbl_columns t) p r0 ∈ rows_of "tasks" s').
  { unfold s'. rewrite E. cbn [snd]. unfold rows_of. rewrite lookup_insert_eq.
    cbn [tbl_rows]. rewrite Hp. apply elem_of_update_rows. exists r0. split; [done|].
    rewrite decide_True; [done|]. apply row_matches_single. apply Howned. }
  assert (Hc : apply_update (tbl_columns t) p r0 !! "completed" = Some (sql_bool true)).
  { rewrite apply_update_lookup. unfold p. rewrite lookup_singleton_eq.
    by rewrite (stored_in_shape _ _ _ _ Hshape). }
  assert (Hs : apply_update (tbl_columns t) p r0 !! "status" = r0 !! "status")
    by (by rewrite apply_update_lookup).
  split.
  { exists (apply_update (tbl_columns t) p r0).
    split; [exact Hin|]. split; [exact Hc | exact Hs]. }
  intros Hcons. unfold consistent in Hcons. rewrite Forall_forall in Hcons.
  specialize (Hcons _ Hin). unfold consistent_row in Hcons.
  rewrite Hc, Hs, bool_decide_eq_false_2 in Hcons by done. discriminate Hcons.
Qed.

(** X3, at a concrete state: alice ticks her pending task 1. *)
Lemma completed_only_update_breaks_consistency_witness :
  let s' := (updateTask alice 1 {[ "completed" := VBool true ]} example_db).2 in
  (∃ r, r ∈ rows_of "tasks" s'
        ∧ r !! "completed" = Some (VNum 1)
        ∧ r !! "status" = Some (VStr "pending"))
  ∧ ¬ consistent s'.
Proof.
  apply (completed_only_update_breaks_consistency example_db alice (VNum 1) 1
           (task_row 1 "write report" "pending" (VStr "2024-01-02") false 1)).
  - reflexivity.
  - reflexivity.
  - rewrite example_tasks. left.
  - split; reflexivity.
  - vm_compute. discriminate.
Defined.

(** ** Deleting and listing tasks *)

Lemma row_matches_task (uid : value) (id : Z) (r : obj) :
  row_matches [CEq "id" (VNum id); CEq "user_id" uid] r ↔ task_of uid id r.
Proof.
  unfold row_matches, task_of. split.
  - intros [Hid [Huid _]%Forall_cons]%Forall_cons. by split.
  - intros [Hid Huid]. by repeat constructor.
Qed.

Lemma tasks_conds_known (t : table) (cs : list cond) :
  shape (tbl_columns t) = shape tasks_columns →
  forallb (λ c, bool_decide (cond_col c ∈ col_name <$> tasks_columns)) cs = true →
  conds_known t cs = true.
Proof.
  intros Hshape Hcs. unfold conds_known. apply forallb_forall. intros c Hc.
  rewrite forallb_forall in Hcs. rewrite (has_col_shape t tasks_columns) by done.
  by apply Hcs.
Qed.

(** X4: [deleteTask] by the owner answers 200 "Task deleted", removes the
    caller's task(s) with that id and nothing else: every other task and the
    users stay as they were. *)
Theorem delete_removes_own_task (s : db) (user : obj) (uid : value) (id : Z) (r0 : obj) :
  tasks_ready s = true →
  user !! "id" = Some uid →
  r0 ∈ rows_of "tasks" s →
  task_of uid id r0 →
  ∃ s', deleteTask user id s = (Response 200 (Message "Task deleted"), s')
        ∧ rows_of "tasks" s' = filter (λ r, ¬ task_of uid id r) (rows_of "tasks" s)
        ∧ rows_of "users" s' = rows_of "users" s.
Proof.
  intros Hready Huser Hr0 Howned.
  destruct (tasks_ready_inv s Hready) as (t & Ht & Hshape).
  unfold rows_of in Hr0 |- *. rewrite Ht in Hr0 |- *.
  unfold deleteTask, try_catch, bind, where_eq. rewrite Huser. cbn [ret].
  rewrite (knex_del_ok s "tasks" t Ht) by (by apply tasks_conds_known).
  destruct (filter (row_matches [CEq "id" (VNum id); CEq "user_id" uid]) (tbl_rows t))
    as [|r1 l] eqn:Hf.
  { exfalso. apply (filter_nil_not_elem_of _ _ r0 Hf); [|done].
    by apply row_matches_task. }
  cbn [length]. rewrite (proj2 (Z.eqb_neq _ 0)) by lia.
  eexists. split; [reflexivity|].
  rewrite lookup_insert_eq, lookup_insert_ne by done. cbn [tbl_rows].
  split; [|done]. apply list_filter_iff. intros r. by rewrite row_matches_task.
Qed.

(** X4, at a concrete state: bob deletes his task 3. *)
Lemma delete_removes_own_task_witness :
  ∃ s', deleteTask bob 3 example_db = (Response 200 (Message "Task deleted"), s')
        ∧ rows_of "tasks" s'
          = filter (λ r, ¬ task_of (VNum 2) 3 r) (rows_of "tasks" example_db)
        ∧ rows_of "users" s' = rows_of "users" example_db.
Proof.
  apply (delete_removes_own_task example_db bob (VNum 2) 3
           (task_row 3 "buy milk" "pending" (VStr "2024-01-01") false 2)).
  - reflexivity.
  - reflexivity.
  - rewrite example_tasks. right. right. left.
  - split; reflexivity.
Defined.

#[global] Instance sql_le_total : Total sql_le.
Proof.
  intros a b. unfold sql_le.
  destruct (sql_bind a) as [| |x|x], (sql_bind b) as [| |y|y];
    try (by left); try (by right).
  - destruct (Z.le_gt_cases x y); [by left | right; lia].
  - apply (total String.le).
Qed.

#[global] Instance row_le_total (col : string) : Total (row_le col).
Proof. intros r1 r2. apply (total sql_le). Qed.

(** X5: [listTasks] answers 200 with the caller's tasks -- each of them
    once, and no task of another user -- in ascending order of id, and
    leaves the database as it was. *)
Theorem list_tasks_own (s : db) (user : obj) (uid : value) :
  tasks_ready s = true →
  user !! "id" = Some uid →
  ∃ l, listTasks user s = (Response 200 (JsonList l), s)
       ∧ l ≡ₚ filter (λ r, r !! "user_id" = Some (sql_bind uid)) (rows_of "tasks" s)
       ∧ Sorted (row_le "id") l.
Proof.
  intros Hready Huser.
  destruct (tasks_ready_inv s Hready) as (t & Ht & Hshape).
  unfold rows_of. rewrite Ht.
  unfold listTasks, try_catch, bind, where_eq. rewrite Huser. cbn [ret].
  rewrite (knex_select_ordered_ok s "tasks" t Ht);
    [|by apply tasks_conds_known|by rewrite (has_col_shape t tasks_columns)].
  eexists. split; [reflexivity|]. split.
  - rewrite merge_sort_Permutation.
    by rewrite (proj1 (filter_row_matches_single "user_id" uid (tbl_rows t))).
  - apply Sorted_merge_sort. apply _.
Qed.

(** X5, at a concrete state. *)
Lemma list_tasks_own_witness :
  ∃ l, listTasks alice example_db = (Response 200 (JsonList l), example_db)
       ∧ l ≡ₚ filter (λ r, r !! "user_id" = Some (VNum 1)) (rows_of "tasks" example_db)
       ∧ Sorted (row_le "id") l.
Proof.
  apply (list_tasks_own example_db alice (VNum 1)); reflexivity.
Defined.

(** ** Tasks due soon *)

Lemma ceil_div_today (now D : Z) :
  0 < D → ceil_div (D * (now / D) - now) D = 0.
Proof.
  intros HD. unfold ceil_div.
  replace (- (D * (now / D) - now)) with (now mod D) by (rewrite Z.mod_eq; lia).
  rewrite Z.div_small; [done|]. by apply Z.mod_pos_bound.
Qed.

Lemma ceil_div_tomorrow (now D : Z) :
  0 < D → ceil_div (D * (now / D + 1) - now) D = 1.
Proof.
  intros HD. unfold ceil_div.
  replace (- (D * (now / D + 1) - now)) with (now mod D + (-1) * D)
    by (rewrite Z.mod_eq; lia).
  rewrite Z.div_add by lia. rewrite Z.div_small; [done|]. by apply Z.mod_pos_bound.
Qed.

Lemma due_conds_wanted (uid : value) (today tomorrow : string) (r : obj) :
  row_matches [CEq "user_id" uid; CEq "completed" (VBool false);
               CIn "dueDate" [VStr today; VStr tomorrow]] r
  ↔ r !! "user_id" = Some (sql_bind uid)
    ∧ r !! "completed" = Some (VNum 0)
    ∧ (r !! "dueDate" = Some (VStr today) ∨ r !! "dueDate" = Some (VStr tomorrow)).
Proof.
  unfold row_matches. rewrite !Forall_cons. cbn [cond_holds sql_bind fmap list_fmap].
  split.
  - intros (Hu & Hc & Hd & _). split; [done|]. split; [done|].
    destruct (r !! "dueDate") as [x|]; [|done]. destruct Hd as [_ Hd].
    apply elem_of_cons in Hd as [->|Hd]; [by left|].
    apply elem_of_cons in Hd as [->|Hd]; [by right|]. by apply elem_of_nil in Hd.
  - intros (Hu & Hc & Hd). split; [done|]. split; [done|]. split; [|constructor].
    destruct Hd as [->| ->]; (split; [done|]).
    + left.
    + right. left.
Qed.

Lemma listDueSoon_selected `{Host} (s : db) (user : obj) (uid : value) (now : Z) :
  tasks_ready s = true →
  user !! "id" = Some uid →
  let wanted (r : obj) :=
    r !! "user_id" = Some (sql_bind uid)
    ∧ r !! "completed" = Some (VNum 0)
    ∧ (r !! "dueDate" = Some (VStr (iso_date now))
       ∨ r !! "dueDate" = Some (VStr (iso_date (setDate_next now)))) in
  ∃ tasks,
    listDueSoon user now s
    = (Response 200
         (JsonList ((λ task, <["daysUntilDue" := daysUntilDue now task]> task) <$> tasks)),
       s)
    ∧ tasks ≡ₚ filter wanted (rows_of "tasks" s)
    ∧ Sorted (row_le "dueDate") tasks.
Proof.
  intros Hready Huser wanted.
  destruct (tasks_ready_inv s Hready) as (t & Ht & Hshape).
  unfold rows_of. rewrite Ht.
  unfold listDueSoon, try_catch, bind, where_eq. rewrite Huser. cbn [ret]. cbv zeta.
  rewrite (knex_select_ordered_ok s "tasks" t Ht);
    [|by apply tasks_conds_known|by rewrite (has_col_shape t tasks_columns)].
  eexists. split; [reflexivity|]. split.
  - rewrite merge_sort_Permutation.
    erewrite list_filter_iff; [reflexivity|]. intros r. apply due_conds_wanted.
  - apply Sorted_merge_sort. apply _.
Qed.

(** X6: [listDueSoon] answers 200 and leaves the database as it was.  The
    tasks it returns are the caller's tasks with [completed = 0] whose
    [dueDate] is the date part of [toISOString] -- the UTC date -- of the
    request time or of the same local clock time one local day later; each
    of them once, in ascending order of [dueDate], each with the field
    [daysUntilDue] added. *)
Theorem due_soon_selects `{Host} (s : db) (user : obj) (uid : value) (now : Z) :
  tasks_ready s = true →
  user !! "id" = Some uid →
  let wanted (r : obj) :=
    r !! "user_id" = Some (sql_bind uid)
    ∧ r !! "completed" = Some (VNum 0)
    ∧ (r !! "dueDate" = Some (VStr (iso_date now))
       ∨ r !! "dueDate" = Some (VStr (iso_date (setDate_next now)))) in
  ∃ tasks,
    listDueSoon user now s
    = (Response 200
         (JsonList ((λ task, <["daysUntilDue" := daysUntilDue now task]> task) <$> tasks)),
       s)
    ∧ tasks ≡ₚ filter wanted (rows_of "tasks" s)
    ∧ Sorted (row_le "dueDate") tasks.
Proof. intros Hready Huser. by apply listDueSoon_selected. Qed.

(** X6, at a concrete state: 08:00 UTC on 2024-01-01. *)
Lemma due_soon_selects_witness :
  ∃ tasks,
    @listDueSoon utc alice 1704096000000 example_db
    = (Response 200
         (JsonList ((λ task, <["daysUntilDue" := @daysUntilDue utc 1704096000000 task]> task)
                      <$> tasks)),
       example_db)
    ∧ tasks ≡ₚ filter (λ r, r !! "user_id" = Some (VNum 1)
                            ∧ r !! "completed" = Some (VNum 0)
                            ∧ (r !! "dueDate" = Some (VStr (@iso_date utc 1704096000000))
                               ∨ r !! "dueDate"
                                 = Some (VStr (@iso_date utc (@setDate_next utc 1704096000000)))))
                 (rows_of "tasks" example_db)
    ∧ Sorted (row_le "dueDate") tasks.
Proof.
  apply (@due_soon_selects utc example_db alice (VNum 1) 1704096000000); reflexivity.
Defined.

(** X7: the number of days [listDueSoon] reports.  On a host whose time
    zone is a fixed offset from UTC, where [new Date] reads the two date
    strings of the query back as midnight UTC of the request's UTC day and
    of the next, every task [listDueSoon] returns is due on one of these two
    dates, with [daysUntilDue = 0] on the first and [daysUntilDue = 1] on the
    second -- whatever the offset and the time of day. *)
Theorem due_soon_days `{Host} (s : db) (user : obj) (uid : value) (now offset : Z) :
  (∀ t isUTC, LocalTZA t isUTC = offset) →
  Date_parse (iso_date now) = Some (msPerDay * (now / msPerDay)) →
  Date_parse (iso_date (now + msPerDay)) = Some (msPerDay * (now / msPerDay + 1)) →
  tasks_ready s = true →
  user !! "id" = Some uid →
  ∃ l, listDueSoon user now s = (Response 200 (JsonList l), s)
       ∧ ∀ task, task ∈ l →
           (task !! "dueDate" = Some (VStr (iso_date now))
            ∧ task !! "daysUntilDue" = Some (VNum 0))
           ∨ (task !! "dueDate" = Some (VStr (iso_date (now + msPerDay)))
              ∧ task !! "daysUntilDue" = Some (VNum 1)).
Proof.
  intros Hzone Htoday Htomorrow Hready Huser.
  assert (Hnext : setDate_next now = now + msPerDay).
  { unfold setDate_next, UTC, LocalTime. rewrite !Hzone. lia. }
  assert (HD : 0 < msPerDay) by (unfold msPerDay; lia).
  destruct (listDueSoon_selected s user uid now Hready Huser) as (tasks & E & Hperm & _).
  eexists. split; [exact E|]. intros task Htask.
  apply list_elem_of_fmap in Htask as (r & -> & Hr).
  rewrite Hperm in Hr. apply list_elem_of_filter in Hr as [(_ & _ & Hdue) _].
  rewrite Hnext in Hdue. rewrite lookup_insert_eq, !lookup_insert_ne by done.
  unfold daysUntilDue, new_Date.
  destruct Hdue as [Hdue|Hdue]; rewrite Hdue; [left|right]; (split; [done|]).
  - rewrite Htoday. by rewrite ceil_div_today.
  - rewrite Htomorrow. by rewrite ceil_div_tomorrow.
Qed.

(** X7, on a host at UTC+05:30, at 20:30 UTC on 2024-01-01 (02:00 on
    2024-01-02 local time): the dates are 2024-01-01 and 2024-01-02. *)
Lemma due_soon_days_witness :
  let ist := fixed_offset_host 19800000 in
  let now := 1704141000000 in
  ∃ l, @listDueSoon ist bob now example_db = (Response 200 (JsonList l), example_db)
       ∧ ∀ task, task ∈ l →
           (task !! "dueDate" = Some (VStr "2024-01-01")
            ∧ task !! "daysUntilDue" = Some (VNum 0))
           ∨ (task !! "dueDate" = Some (VStr "2024-01-02")
              ∧ task !! "daysUntilDue" = Some (VNum 1)).
Proof.
  intros ist now.
  assert (Htoday : @iso_date ist now = "2024-01-01") by (vm_compute; reflexivity).
  assert (Htomorrow : @iso_date ist (now + msPerDay) = "2024-01-02")
    by (vm_compute; reflexivity).
  rewrite <-Htoday, <-Htomorrow.
  apply (@due_soon_days ist example_db bob (VNum 2) now 19800000).
  - intros t isUTC. reflexivity.
  - vm_compute. reflexivity.
  - vm_compute. reflexivity.
  - reflexivity.
  - reflexivity.
Defined.




(** ** Tokens and the identity middleware *)



Lemma signToken_claims `{Jwt} (secret : string) (user : obj) (now : Z) :
  signToken secret user now = jwt_encode (issued_claims user now) secret.
Proof. reflexivity. Qed.





(** X10: [requireAuth] lets a request through only with a header that
    starts with "Bearer ", whose second space-separated piece decodes under
    the secret to the identity it attaches, and whose expiry, when it has
    one, is a number of seconds still ahead. *)
Theorem requireAuth_sound `{Jwt} (secret : string) (authorization : option string)
    (now : Z) (decoded : obj) :
  requireAuth secret authorization now = Authenticated decoded →
  ∃ auth token,
    authorization = Some auth
    ∧ String.prefix "Bearer " auth = true
    ∧ split_on " " auth !! 1%nat = Some token
    ∧ jwt_decode token secret = Some decoded
    ∧ (decoded !! "exp" = None
       ∨ ∃ exp, decoded !! "exp" = Some (VNum exp) ∧ now / 1000 < exp).
Proof.
  unfold requireAuth. destruct authorization as [auth|]; [|done].
  destruct (String.prefix "Bearer " auth) eqn:Hprefix; [|done]. cbn [negb].
  destruct (split_on " " auth !! 1%nat) as [token|] eqn:Hsplit; [|done].
  unfold jwt_verify. destruct (jwt_decode token secret) as [payload|] eqn:Hdecode; [|done].
  destruct (payload !! "exp") as [[| |exp|]|] eqn:Hexp; try done.
  - destruct (exp <=? now / 1000) eqn:Hle; [done|]. intros [= <-].
    exists auth, token. repeat split; try done. right. exists exp.
    split; [done|]. by apply Z.leb_gt.
  - intros [= <-]. exists auth, token. repeat split; try done. by left.
Qed.



(** X10, with the transparent codec: what lets alice's request through. *)
Lemma requireAuth_sound_witness :
  let u := user_row 1 "alice" "alice@example.org" "$2a$10$wonderland" in
  let header := "Bearer " +:+ @signToken plain_jwt "k" u 1704096000000 in
  ∃ auth token,
    Some header = Some auth
    ∧ String.prefix "Bearer " auth = true
    ∧ split_on " " auth !! 1%nat = Some token
    ∧ @jwt_decode plain_jwt token "k" = Some (issued_claims u 1704096000000)
    ∧ (issued_claims u 1704096000000 !! "exp" = None
       ∨ ∃ exp, issued_claims u 1704096000000 !! "exp" = Some (VNum exp)
                ∧ 1704099600000 / 1000 < exp).
Proof.
  intros u header.
  apply (@requireAuth_sound plain_jwt "k" (Some header) 1704099600000
           (issued_claims u 1704096000000)).
  vm_compute. reflexivity.
Defined.



(** ** Logging in *)

Lemma users_conds_known (t : table) (cs : list cond) :
  shape (tbl_columns t) = shape users_columns →
  forallb (λ c, bool_decide (cond_col c ∈ col_name <$> users_columns)) cs = true →
  conds_known t cs = true.
Proof.
  intros Hshape Hcs. unfold conds_known. apply forallb_forall. intros c Hc.
  rewrite forallb_forall in Hcs. rewrite (has_col_shape t users_columns) by done.
  by apply Hcs.
Qed.



(** X12: a login request without an email, or with a registered email and
    without a password, is answered 500 "Login failed" (knex refuses the
    undefined binding, bcryptjs the missing password) and leaves the
    database as it was. *)
Theorem login_missing_field `{Jwt} `{Bcrypt} (secret : string) (s : db) (req_body : obj)
    (now : Z) :
  users_ready s = true →
  req_body !! "email" = None
  ∨ (req_body !! "password" = None
     ∧ ∃ email r, req_body !! "email" = Some (VStr email)
                  ∧ r ∈ rows_of "users" s ∧ r !! "email" = Some (VStr email)) →
  login secret req_body now s = (Response 500 (Message "Login failed"), s).
Proof.
  intros Hready Hmissing.
  destruct (users_ready_inv s Hready) as (t & Ht & Hshape).
  unfold login, try_catch, bind, where_eq.
  destruct Hmissing as [->|(Hpassword & email & r & -> & Hr & Hemail)]; [done|].
  unfold rows_of in Hr. rewrite Ht in Hr. cbn [ret].
  rewrite (knex_first_ok s "users" t Ht) by (by apply users_conds_known).
  destruct (filter (row_matches [CEq "email" (VStr email)]) (tbl_rows t))
    as [|r0 l] eqn:Hf.
  - exfalso. apply (filter_nil_not_elem_of _ _ r Hf); [|done].
    by apply row_matches_single.
  - cbn [head]. unfold bcrypt_compare. by rewrite Hpassword.
Qed.

(** X12, at a concrete state: alice's email and no password. *)
Lemma login_missing_field_witness :
  @login plain_jwt prefix_bcrypt "k" {[ "email" := VStr "alice@example.org" ]} 0 example_db
  = (Response 500 (Message "Login failed"), example_db).
Proof.
  apply (@login_missing_field plain_jwt prefix_bcrypt "k" example_db); [reflexivity|].
  right. split; [reflexivity|].
  exists "alice@example.org", (user_row 1 "alice" "alice@example.org" "$2a$10$wonderland").
  split; [reflexivity|]. split; [rewrite example_users; left | reflexivity].
Defined.

(** ** Startup migration *)

Lemma has_col_rename_from (from to : string) (t : table) :
  from ≠ to → has_col (rename_in from to t) from = false.
Proof.
  intros Hne. unfold has_col, col_names, rename_in. cbn [tbl_columns].
  apply bool_decide_eq_false. rewrite <-list_fmap_compose.
  intros (c & Hc & _)%list_elem_of_fmap. cbn in Hc.
  destruct (decide (col_name c = from)); cbn in Hc; congruence.
Qed.

Lemma has_col_rename_to (from to : string) (t : table) :
  has_col t from = true → has_col (rename_in from to t) to = true.
Proof.
  unfold has_col, col_names, rename_in. cbn [tbl_columns].
  intros (c & Hc & Hin)%bool_decide_eq_true%list_elem_of_fmap.
  apply bool_decide_eq_true. rewrite <-list_fmap_compose.
  apply list_elem_of_fmap. exists c. split; [|done]. cbn.
  by rewrite decide_True.
Qed.

Lemma has_col_add (c : column) (v : value) (t : table) (x : string) :
  has_col (add_in c v t) x = has_col t x || bool_decide (x = col_name c).
Proof.
  unfold has_col, col_names, add_in. cbn [tbl_columns]. rewrite fmap_app.
  apply eq_true_iff_eq. rewrite orb_true_iff, !bool_decide_eq_true, elem_of_app.
  cbn. rewrite list_elem_of_singleton. done.
Qed.

Lemma has_col_drop (name : string) (t : table) (x : string) :
  has_col (drop_in name t) x = has_col t x && negb (bool_decide (x = name)).
Proof.
  unfold has_col, col_names, drop_in. cbn [tbl_columns].
  apply eq_true_iff_eq.
  rewrite andb_true_iff, negb_true_iff, !bool_decide_eq_true, bool_decide_eq_false.
  rewrite !list_elem_of_fmap. split.
  - intros (c & -> & [Hc Hin]%list_elem_of_filter). split; [by exists c|done].
  - intros [(c & -> & Hin) Hne]. exists c. split; [done|].
    by apply list_elem_of_filter.
Qed.

Lemma renameColumn_eq (s : db) (tbl from to : string) (t : table) :
  s !! tbl = Some t →
  renameColumn tbl from to s
  = if negb (has_col t from) then (Throw ("no such column: " +:+ from), s)
    else if has_col t to then (Throw ("duplicate column name: " +:+ to), s)
    else (Ok tt, <[tbl := rename_in from to t]> s).
Proof.
  intros Ht. unfold renameColumn, bind. rewrite (get_table_ok s tbl t Ht).
  destruct (negb _); [done|]. by destruct (has_col t to).
Qed.

Lemma addColumn_eq (s : db) (tbl : string) (c : column) (t : table) :
  s !! tbl = Some t →
  addColumn tbl c s
  = if has_col t (col_name c)
    then (Throw ("duplicate column name: " +:+ col_name c), s)
    else if col_increments c then (Throw "Cannot add a PRIMARY KEY column", s)
    else match added_value c with
         | Throw e => (Throw e, s)
         | Ok v => (Ok tt, <[tbl := add_in c v t]> s)
         end.
Proof.
  intros Ht. unfold addColumn, bind. rewrite (get_table_ok s tbl t Ht).
  destruct (has_col _ _); [done|]. destruct (col_increments c); [done|].
  by destruct (added_value c).
Qed.

Lemma dropColumn_eq (s : db) (tbl name : string) (t : table) :
  s !! tbl = Some t →
  dropColumn tbl name s
  = if negb (has_col t name) then (Throw ("no such column: " +:+ name), s)
    else if bool_decide (Exists (λ c, col_name c = name
                                      ∧ (col_increments c ∨ col_unique c))
                                (tbl_columns t))
    then (Throw ("cannot drop column " +:+ name), s)
    else (Ok tt, <[tbl := drop_in name t]> s).
Proof.
  intros Ht. unfold dropColumn, bind. rewrite (get_table_ok s tbl t Ht).
  destruct (negb _); [done|]. by destruct (bool_decide _).
Qed.

(** The steps of [migrate_body], each before an arbitrary rest [k]. *)
Lemma ensure_table_step {A} (name : string) (cols : list column) (k : M A) (s : db) :
  (let! present := hasTable name in
   when_ (negb present) (createTable name cols) ;; k) s
  = k (match s !! name with
       | Some _ => s
       | None => <[name := Table cols [] 0]> s
       end).
Proof.
  unfold bind, hasTable, when_, createTable, ret.
  destruct (s !! name) as [t|] eqn:Hs.
  - rewrite bool_decide_eq_true_2 by done. done.
  - rewrite bool_decide_eq_false_2 by (by intros [??]). cbn [negb]. by rewrite Hs.
Qed.

Lemma rename_step {A} (tbl from to : string) (k : M A) (s : db) :
  (let! legacy := hasColumn tbl from in
   when_ legacy (renameColumn tbl from to) ;; k) s
  = match s !! tbl with
    | Some t =>
        if has_col t from
        then if has_col t to
             then (Throw ("duplicate column name: " +:+ to), s)
             else k (<[tbl := rename_in from to t]> s)
        else k s
    | None => k s
    end.
Proof.
  unfold bind at 1. unfold hasColumn.
  destruct (s !! tbl) as [t|] eqn:Hs; [|done].
  destruct (has_col t from) eqn:Hfrom; [|done].
  unfold when_, bind. rewrite (renameColumn_eq s tbl from to t Hs), Hfrom. cbn [negb].
  by destruct (has_col t to).
Qed.

Lemma add_step {A} (tbl name : string) (c : column) (k : M A) (s : db) :
  col_name c = name →
  (let! present := hasColumn tbl name in
   when_ (negb present) (addColumn tbl c) ;; k) s
  = match s !! tbl with
    | Some t =>
        if has_col t name then k s
        else if col_increments c then (Throw "Cannot add a PRIMARY KEY column", s)
        else match added_value c with
             | Throw e => (Throw e, s)
             | Ok v => k (<[tbl := add_in c v t]> s)
             end
    | None => (Throw ("no such table: " +:+ tbl), s)
    end.
Proof.
  intros <-. unfold bind at 1. unfold hasColumn.
  destruct (s !! tbl) as [t|] eqn:Hs.
  - destruct (has_col t (col_name c)) eqn:Hc; [done|].
    unfold when_, bind. cbn [negb]. rewrite (addColumn_eq s tbl c t Hs), Hc.
    destruct (col_increments c); [done|]. by destruct (added_value c).
  - unfold when_, bind. cbn [negb]. unfold addColumn, bind, get_table. by rewrite Hs.
Qed.

Lemma drop_step {A} (tbl name : string) (k : M A) (s : db) :
  (let! present := hasColumn tbl name in
   when_ present (dropColumn tbl name) ;; k) s
  = match s !! tbl with
    | Some t =>
        if has_col t name
        then if bool_decide (Exists (λ c, col_name c = name
                                          ∧ (col_increments c ∨ col_unique c))
                                    (tbl_columns t))
             then (Throw ("cannot drop column " +:+ name), s)
             else k (<[tbl := drop_in name t]> s)
        else k s
    | None => k s
    end.
Proof.
  unfold bind at 1. unfold hasColumn.
  destruct (s !! tbl) as [t|] eqn:Hs; [|done].
  destruct (has_col t name) eqn:Hc; [|done].
  unfold when_, bind. rewrite (dropColumn_eq s tbl name t Hs), Hc. cbn [negb].
  by destruct (bool_decide _).
Qed.

(** On a settled database every step of [migrate] finds its work done. *)
Lemma migrate_settled `{Host} (now : Z) (s : db) :
  settled s → migrate now s = (None, s).
Proof.
  intros ([u Hu] & [t Ht] & He & Hb & Hr & Hc).
  unfold has_column in *. rewrite ?Hu, ?Ht in *.
  unfold migrate, migrate_body.
  rewrite ensure_table_step, Hu. rewrite ensure_table_step, Ht.
  rewrite rename_step, Hu, He.
  rewrite (add_step "users" "browser_notifications") by done. rewrite Hu, Hb.
  rewrite drop_step, Ht, Hr.
  unfold bind, hasColumn. rewrite Ht, Hc. done.
Qed.

Lemma has_column_insert (s : db) (tbl : string) (t : table) (c : string) :
  has_column (<[tbl := t]> s) tbl c = has_col t c.
Proof. unfold has_column. by rewrite lookup_insert_eq. Qed.

Lemma has_column_insert_ne (s : db) (tbl tbl' : string) (t : table) (c : string) :
  tbl ≠ tbl' → has_column (<[tbl := t]> s) tbl' c = has_column s tbl' c.
Proof. intros Hne. unfold has_column. by rewrite lookup_insert_ne. Qed.

Lemma has_col_same_columns (t t' : table) (c : string) :
  tbl_columns t' = tbl_columns t → has_col t' c = has_col t c.
Proof. intros Hc. unfold has_col, col_names. by rewrite Hc. Qed.

(** The last step of [migrate_body] on its own. *)
Lemma created_at_step `{Host} (now : Z) (s s' : db) :
  is_Some (s !! "users") →
  is_Some (s !! "tasks") →
  (let! created := hasColumn "tasks" "created_at" in
   when_ (negb created)
     (addColumn "tasks" (datetime_col "created_at") ;;
      knex_update "tasks" [] {[ "created_at" := VStr (toISOString now) ]} ;;
      ret tt)) s = (Ok tt, s') →
  is_Some (s' !! "users") ∧ is_Some (s' !! "tasks")
  ∧ s' !! "users" = s !! "users"
  ∧ has_column s' "tasks" "created_at" = true
  ∧ ∀ c, c ≠ "created_at" → has_column s' "tasks" c = has_column s "tasks" c.
Proof.
  intros Hu [t Ht]. unfold bind at 1. unfold hasColumn. rewrite Ht.
  destruct (has_col t "created_at") eqn:Hc.
  { cbn. intros [= <-]. unfold has_column. rewrite Ht. by eauto. }
  unfold when_. cbn [negb]. unfold bind at 1.
  rewrite (addColumn_eq s "tasks" (datetime_col "created_at") t Ht).
  change (col_name (datetime_col "created_at")) with "created_at". rewrite Hc.
  change (col_increments (datetime_col "created_at")) with false.
  change (added_value (datetime_col "created_at")) with (@Ok value VNull).
  cbv beta iota.
  set (t1 := add_in (datetime_col "created_at") VNull t).
  set (s1 := <["tasks" := t1]> s).
  assert (Ht1 : s1 !! "tasks" = Some t1) by apply lookup_insert_eq.
  unfold bind at 1.
  destruct (knex_update_cases s1 "tasks" t1 []
              {[ "created_at" := VStr (toISOString now) ]} Ht1) as [[e ->]|[n ->]];
    [done|].
  cbn. intros [= <-].
  rewrite lookup_insert_eq, lookup_insert_ne by done.
  unfold s1. rewrite lookup_insert_ne by done.
  split; [done|]. split; [by eauto|]. split; [done|].
  rewrite !has_column_insert. unfold has_column. rewrite Ht.
  split.
  - rewrite (has_col_same_columns t1) by done. unfold t1. rewrite has_col_add.
    change (col_name (datetime_col "created_at")) with "created_at".
    rewrite (bool_decide_eq_true_2 ("created_at" = "created_at")) by done.
    apply orb_true_r.
  - intros c Hne. rewrite lookup_insert_eq.
    change (has_col t1 c = has_col t c). unfold t1.
    rewrite has_col_add.
    change (col_name (datetime_col "created_at")) with "created_at".
    rewrite (bool_decide_eq_false_2 (c = "created_at")) by done.
    apply orb_false_r.
Qed.

(** A run of [migrate] that logs no error leaves a settled database. *)
Lemma migrate_settles `{Host} (now : Z) (s s' : db) :
  migrate now s = (None, s') → settled s'.
Proof.
  unfold migrate.
  destruct (migrate_body now s) as [[[]|e] s0] eqn:E; [|done]. intros [= <-].
  revert E. unfold migrate_body.
  rewrite ensure_table_step.
  set (s1 := match s !! "users" with Some _ => s | None => _ end).
  assert (Hu1 : is_Some (s1 !! "users")).
  { unfold s1. destruct (s !! "users") eqn:Hs; [by rewrite Hs|].
    by rewrite lookup_insert_eq. }
  rewrite ensure_table_step.
  set (s2 := match s1 !! "tasks" with Some _ => s1 | None => _ end).
  assert (Hu2 : is_Some (s2 !! "users")).
  { unfold s2. destruct (s1 !! "tasks"); [done|]. by rewrite lookup_insert_ne. }
  assert (Ht2 : is_Some (s2 !! "tasks")).
  { unfold s2. destruct (s1 !! "tasks") eqn:Hs; [by rewrite Hs|].
    by rewrite lookup_insert_eq. }
  clearbody s2. clear s1 Hu1.
  rewrite rename_step. destruct Hu2 as [u2 Hu2]. rewrite Hu2.
  assert (∀ k : M unit,
            (if has_col u2 "email_notifications"
             then if has_col u2 "browser_notifications"
                  then (Throw ("duplicate column name: " +:+ "browser_notifications"), s2)
                  else k (<["users" := rename_in "email_notifications"
                                         "browser_notifications" u2]> s2)
             else k s2) = (Ok tt, s0) →
            ∃ s3 u3, k s3 = (Ok tt, s0)
                     ∧ s3 !! "users" = Some u3 ∧ is_Some (s3 !! "tasks")
                     ∧ has_col u3 "email_notifications" = false) as Hk.
  { intros k. destruct (has_col u2 "email_notifications") eqn:He.
    - destruct (has_col u2 "browser_notifications") eqn:Hb; [by intros [=]|].
      intros Hk. eexists _, _. split; [exact Hk|]. rewrite lookup_insert_eq.
      split; [done|]. split; [by rewrite lookup_insert_ne|].
      by apply has_col_rename_from.
    - intros Hk. by exists s2, u2. }
  intros E. apply Hk in E as (s3 & u3 & E & Hu3 & Ht3 & He3).
  clear Hk Hu2 Ht2 u2 s2. revert E.
  rewrite (add_step "users" "browser_notifications") by done. rewrite Hu3.
  change (col_increments (defaultTo (DValue (VBool true))
                            (boolean_col "browser_notifications"))) with false.
  change (added_value (defaultTo (DValue (VBool true))
                         (boolean_col "browser_notifications")))
    with (@Ok value (VNum 1)).
  cbv beta iota.
  set (c := defaultTo _ _).
  assert (∀ k : M unit,
            (if has_col u3 "browser_notifications" then k s3
             else k (<["users" := add_in c (VNum 1) u3]> s3)) = (Ok tt, s0) →
            ∃ s4 u4, k s4 = (Ok tt, s0)
                     ∧ s4 !! "users" = Some u4 ∧ is_Some (s4 !! "tasks")
                     ∧ has_col u4 "email_notifications" = false
                     ∧ has_col u4 "browser_notifications" = true) as Hk.
  { intros k. destruct (has_col u3 "browser_notifications") eqn:Hb.
    - intros Hk. by exists s3, u3.
    - intros Hk. eexists _, _. split; [exact Hk|]. rewrite lookup_insert_eq.
      split; [done|]. split; [by rewrite lookup_insert_ne|].
      rewrite !has_col_add, He3, Hb. done. }
  intros E. apply Hk in E as (s4 & u4 & E & Hu4 & Ht4 & He4 & Hb4).
  clear Hk Hu3 Ht3 He3 u3 s3. revert E.
  rewrite drop_step. destruct Ht4 as [t4 Ht4]. rewrite Ht4.
  assert (∀ k : M unit,
            (if has_col t4 "reminder_sent"
             then if bool_decide (Exists (λ c, col_name c = "reminder_sent"
                                               ∧ (col_increments c ∨ col_unique c))
                                         (tbl_columns t4))
                  then (Throw ("cannot drop column " +:+ "reminder_sent"), s4)
                  else k (<["tasks" := drop_in "reminder_sent" t4]> s4)
             else k s4) = (Ok tt, s0) →
            ∃ s5, k s5 = (Ok tt, s0)
                  ∧ s5 !! "users" = Some u4 ∧ is_Some (s5 !! "tasks")
                  ∧ has_column s5 "tasks" "reminder_sent" = false) as Hk.
  { intros k. destruct (has_col t4 "reminder_sent") eqn:Hr.
    - destruct (bool_decide _); [by intros [=]|].
      intros Hk. eexists. split; [exact Hk|]. rewrite lookup_insert_ne by done.
      rewrite lookup_insert_eq, has_column_insert, has_col_drop, Hr.
      split; [done|]. split; [by eauto|]. done.
    - intros Hk. exists s4. split; [exact Hk|]. unfold has_column. rewrite Ht4.
      by eauto. }
  intros E. apply Hk in E as (s5 & E & Hu5 & Ht5 & Hr5). clear Hk.
  destruct (created_at_step now s5 s0) as (Hu & Ht & Husers & Hc & Hother);
    [by eauto|done|done|].
  unfold settled. split; [done|]. split; [done|].
  unfold has_column at 1 2. rewrite Husers, Hu5.
  split; [done|]. split; [done|]. split; [|done].
  by rewrite Hother.
Qed.

(** X13: [migrate] is idempotent.  A run of [migrate] that logged no error
    left a database on which every later run, at any time, logs no error
    and changes nothing: neither the tables, nor their columns, nor their
    rows. *)
Theorem migrate_idempotent `{Host} (now now' : Z) (s s' : db) :
  migrate now s = (None, s') →
  migrate now' s' = (None, s').
Proof. intros E. apply migrate_settled. by apply (migrate_settles now s). Qed.

(** X13, from the empty database. *)
Lemma migrate_idempotent_witness :
  @migrate utc 1704096000000 (@migrate utc 1704067200000 ∅).2
  = (None, (@migrate utc 1704067200000 ∅).2).
Proof.
  apply (@migrate_idempotent utc 1704067200000 1704096000000 ∅).
  vm_compute. reflexivity.
Defined.

(** X14: a first start.  On a database with neither table, [migrate] logs
    no error and creates [users] and [tasks] with the declared columns and
    no rows, and touches nothing else; the task and user routes find the
    tables they expect. *)
Theorem migrate_fresh `{Host} (now : Z) (s : db) :
  s !! "users" = None →
  s !! "tasks" = None →
  let s' := <["tasks" := Table tasks_columns [] 0]>
              (<["users" := Table users_columns [] 0]> s) in
  migrate now s = (None, s') ∧ users_ready s' = true ∧ tasks_ready s' = true.
Proof.
  intros Hu Ht s'. split; [|split].
  - unfold migrate, migrate_body.
    rewrite ensure_table_step, Hu. rewrite ensure_table_step.
    rewrite lookup_insert_ne, Ht by done.
    rewrite rename_step. rewrite lookup_insert_ne, lookup_insert_eq by done.
    change (has_col (Table users_columns [] 0) "email_notifications") with false.
    cbv beta iota.
    rewrite (add_step "users" "browser_notifications") by done.
    rewrite lookup_insert_ne, lookup_insert_eq by done.
    change (has_col (Table users_columns [] 0) "browser_notifications") with true.
    cbv beta iota.
    rewrite drop_step. rewrite lookup_insert_eq.
    change (has_col (Table tasks_columns [] 0) "reminder_sent") with false.
    cbv beta iota.
    unfold bind, hasColumn. rewrite lookup_insert_eq.
    change (has_col (Table tasks_columns [] 0) "created_at") with true.
    done.
  - unfold users_ready, s'. rewrite lookup_insert_ne, lookup_insert_eq by done. done.
  - unfold tasks_ready, s'. by rewrite lookup_insert_eq.
Qed.

(** X14, from the empty database. *)
Lemma migrate_fresh_witness :
  let s' : db := <["tasks" := Table tasks_columns [] 0]>
                   (<["users" := Table users_columns [] 0]> ∅) in
  @migrate utc 1704067200000 ∅ = (None, s')
  ∧ users_ready s' = true ∧ tasks_ready s' = true.
Proof. apply (@migrate_fresh utc 1704067200000 ∅); reflexivity. Defined.

(** X15: [migrate] gives up at the first failing step.  When [users] has
    both [email_notifications] and [browser_notifications] (and both tables
    exist), the rename fails; [migrate] logs that error and changes nothing:
    in particular a [reminder_sent] column is not dropped and a missing
    [created_at] column is not added. *)
Theorem migrate_aborts_on_duplicate `{Host} (now : Z) (s : db) :
  is_Some (s !! "tasks") →
  has_column s "users" "email_notifications" = true →
  has_column s "users" "browser_notifications" = true →
  migrate now s = (Some "duplicate column name: browser_notifications", s).
Proof.
  intros [t Ht] He Hb. unfold has_column in He, Hb.
  destruct (s !! "users") as [u|] eqn:Hu; [|done].
  unfold migrate, migrate_body.
  rewrite ensure_table_step, Hu. rewrite ensure_table_step, Ht.
  rewrite rename_step, Hu, He, Hb. done.
Qed.

(** X15, at a concrete state: the legacy column of [tasks] stays. *)
Lemma migrate_aborts_on_duplicate_witness :
  @migrate utc 1704067200000 doubled_db
  = (Some "duplicate column name: browser_notifications", doubled_db)
  ∧ has_column doubled_db "tasks" "reminder_sent" = true.
Proof.
  split; [|reflexivity].
  apply (@migrate_aborts_on_duplicate utc 1704067200000 doubled_db).
  - by eexists.
  - reflexivity.
  - reflexivity.
Defined.

Lemma update_rows_all (cols : list column) (u : obj) (rows : list obj) :
  update_rows cols [] u rows = apply_update cols u <$> rows.
Proof.
  unfold update_rows. apply list_fmap_ext. intros _ r _.
  rewrite decide_True; [done|]. constructor.
Qed.

Lemma apply_update_singleton (cols : list column) (k : string) (v : value) (r : obj) :
  apply_update cols {[ k := v ]} r = <[k := stored_in cols k v]> r.
Proof.
  apply map_eq. intros k'. rewrite apply_update_lookup.
  destruct (decide (k = k')) as [<-|Hne].
  - by rewrite lookup_singleton_eq, lookup_insert_eq.
  - by rewrite lookup_singleton_ne, lookup_insert_ne.
Qed.

(** The ids of rows whose [id] is not touched, and the counter of a table
    that was built anew. *)
Lemma row_ids_keep (f : obj → obj) (rows : list obj) :
  (∀ r, f r !! "id" = r !! "id") → row_ids (f <$> rows) = row_ids rows.
Proof.
  intros Hf. unfold row_ids. induction rows as [|r rows IH]; [done|].
  rewrite fmap_cons. cbn. by rewrite Hf, IH.
Qed.

Lemma foldr_max_from (l : list Z) (z : Z) :
  0 ≤ z → foldr Z.max z l = Z.max z (foldr Z.max 0 l).
Proof. intros Hz. induction l as [|a l IH]; cbn; lia. Qed.

(** X16: upgrading a database of the earlier version.  When [users] has
    [email_notifications] in the place of [browser_notifications] and
    [tasks] has [reminder_sent] and no [created_at], [migrate] logs no
    error; afterwards both tables have the current columns, every user row
    keeps its values with the notification preference under the new name,
    and every task row keeps its values except that [reminder_sent] is gone
    and [created_at] is the ISO string of the time of the migration, as a
    datetime column stores it.  No row is added or lost.  The id counter of
    [users] is kept; the one of [tasks], whose table is built anew to drop
    the column, is the largest id of a task that is there, so that the next
    task gets the id after it, whatever ids were handed out before. *)
Theorem migrate_upgrades_legacy `{Host} (now : Z) (s : db) (d d' : coldefault)
    (urows trows : list obj) (useq tseq : Z) :
  s !! "users" = Some (Table (legacy_users_columns d) urows useq) →
  s !! "tasks" = Some (Table (legacy_tasks_columns d') trows tseq) →
  let users' :=
    Table (take 4 users_columns ++ [defaultTo d (boolean_col "browser_notifications")])
          (rename_key "email_notifications" "browser_notifications" <$> urows) useq in
  let tasks' :=
    Table (take 8 tasks_columns ++ [datetime_col "created_at"])
          ((λ r, <["created_at" := stored TDatetime (VStr (toISOString now))]>
                   (delete "reminder_sent" r))
             <$> trows)
          (foldr Z.max 0 (row_ids trows)) in
  let s' := <["tasks" := tasks']> (<["users" := users']> s) in
  migrate now s = (None, s') ∧ users_ready s' = true ∧ tasks_ready s' = true
  ∧ next_id tasks' = 1 + foldr Z.max 0 (row_ids trows).
Proof.
  intros Hu Ht users' tasks' s'. split; [|split; [|split]].
  - unfold migrate, migrate_body.
    rewrite ensure_table_step, Hu. rewrite ensure_table_step, Ht.
    (* the rename *)
    rewrite rename_step, Hu.
    change (has_col (Table (legacy_users_columns d) urows useq) "email_notifications")
      with true.
    change (has_col (Table (legacy_users_columns d) urows useq) "browser_notifications")
      with false.
    cbv beta iota.
    change (rename_in "email_notifications" "browser_notifications"
              (Table (legacy_users_columns d) urows useq)) with users'.
    set (s1 := <["users" := users']> s).
    assert (Hu1 : s1 !! "users" = Some users') by apply lookup_insert_eq.
    assert (Ht1 : s1 !! "tasks" = Some (Table (legacy_tasks_columns d') trows tseq))
      by (unfold s1; by rewrite lookup_insert_ne).
    (* the notification column is there *)
    rewrite (add_step "users" "browser_notifications") by done. rewrite Hu1.
    change (has_col users' "browser_notifications") with true. cbv beta iota.
    (* the drop *)
    rewrite drop_step, Ht1.
    change (has_col (Table (legacy_tasks_columns d') trows tseq) "reminder_sent")
      with true.
    rewrite bool_decide_eq_false_2; cycle 1.
    { intros (c & Hc & Hname & Hflags)%Exists_exists.
      apply list_elem_of_In in Hc. cbn in Hc.
      destruct Hc as [<-|[<-|[<-|[<-|[<-|[<-|[<-|[<-|[<-|[]]]]]]]]]];
        cbn in Hname, Hflags; try discriminate Hname. by destruct Hflags. }
    cbv beta iota.
    set (t2 := drop_in "reminder_sent" (Table (legacy_tasks_columns d') trows tseq)).
    set (s2 := <["tasks" := t2]> s1).
    assert (Ht2 : s2 !! "tasks" = Some t2) by apply lookup_insert_eq.
    (* created_at *)
    unfold bind at 1. unfold hasColumn. rewrite Ht2.
    change (has_col t2 "created_at") with false. unfold when_. cbn [negb].
    unfold bind at 1.
    rewrite (addColumn_eq s2 "tasks" (datetime_col "created_at") t2 Ht2).
    change (col_name (datetime_col "created_at")) with "created_at".
    change (has_col t2 "created_at") with false.
    change (col_increments (datetime_col "created_at")) with false.
    change (added_value (datetime_col "created_at")) with (@Ok value VNull).
    cbv beta iota.
    set (t3 := add_in (datetime_col "created_at") VNull t2).
    set (s3 := <["tasks" := t3]> s2).
    assert (Ht3 : s3 !! "tasks" = Some t3) by apply lookup_insert_eq.
    unfold bind at 1.
    rewrite (knex_update_ok s3 "tasks" t3 [] {[ "created_at" := VStr (toISOString now) ]}
               Ht3); cycle 1.
    { apply insert_non_empty. }
    { done. }
    { unfold keys_known. apply bool_decide_eq_true. apply map_Forall_singleton.
      assert (has_col t3 "created_at" = true) as Hk.
      { unfold t3. rewrite has_col_add. apply orb_true_intro. by right. }
      by apply bool_decide_eq_true in Hk. }
    { apply rowid_not_written. intros c Hc Hinc.
      apply list_elem_of_In in Hc. cbn in Hc.
      destruct Hc as [<-|[<-|[<-|[<-|[<-|[<-|[<-|[<-|[<-|[]]]]]]]]]]; done. }
    { intros r c _ _ Hc Hsome. apply list_elem_of_In in Hc. cbn in Hc.
      destruct Hc as [<-|[<-|[<-|[<-|[<-|[<-|[<-|[<-|[<-|[]]]]]]]]]];
        cbn [col_name increments string_col text_col integer_col boolean_col
             datetime_col notNullable unique defaultTo references] in Hsome;
        try (rewrite lookup_singleton_ne in Hsome by done; by destruct Hsome).
      done. }
    cbn [ret]. f_equal.
    unfold s3, s2, s1, s'. rewrite !insert_insert_eq. f_equal.
    unfold tasks', t3, t2, add_in, drop_in. cbn [tbl_columns tbl_rows tbl_seq col_name
      datetime_col].
    f_equal.
    rewrite update_rows_all, <-!list_fmap_compose. apply list_fmap_ext.
    intros _ r _. cbn [compose]. rewrite apply_update_singleton.
    change (stored_in _ "created_at" (VStr (toISOString now)))
      with (stored TDatetime (VStr (toISOString now))).
    cbn [col_name datetime_col]. by rewrite insert_insert_eq.
  - unfold users_ready, s'. rewrite lookup_insert_ne, lookup_insert_eq by done. done.
  - unfold tasks_ready, s'. by rewrite lookup_insert_eq.
  - unfold next_id, tasks'. cbn [tbl_seq tbl_rows].
    rewrite row_ids_keep.
    + pose proof (foldr_max_ge (row_ids trows) 0) as Hge.
      rewrite foldr_max_from by done. lia.
    + intros r. by rewrite lookup_insert_ne, lookup_delete_ne.
Qed.

(** X16, at a concrete state: the counter of [tasks] was 5, and the next
    task gets the id 2. *)
Lemma migrate_upgrades_legacy_witness :
  ∃ s' tasks', @migrate utc 1704067200000 legacy_db = (None, s')
        ∧ users_ready s' = true ∧ tasks_ready s' = true
        ∧ rows_of "users" s'
          = [ {[ "id" := VNum 1; "username" := VStr "alice";
                 "email" := VStr "alice@example.org";
                 "password" := VStr "$2a$10$wonderland";
                 "browser_notifications" := VNum 0 ]} ]
        ∧ (rows_of "tasks" s' ≫= λ r, [r !! "reminder_sent"; r !! "created_at"])
          = [None; Some (VStr "2024-01-01T00:00:00.000Z")]
        ∧ s' !! "tasks" = Some tasks'
        ∧ next_id tasks' = 2.
Proof.
  destruct (@migrate_upgrades_legacy utc 1704067200000 legacy_db
              (DValue (VBool true)) (DValue (VBool false))
              (tbl_rows (default (Table [] [] 0) (legacy_db !! "users")))
              (tbl_rows (default (Table [] [] 0) (legacy_db !! "tasks"))) 1 5)
    as (E & Hu & Ht & Hnext).
  - reflexivity.
  - reflexivity.
  - eexists _, _. split; [exact E|]. split; [exact Hu|]. split; [exact Ht|].
    split; [vm_compute; reflexivity|]. split; [vm_compute; reflexivity|].
    split; [apply lookup_insert_eq|].
    rewrite Hnext. vm_compute. reflexivity.
Defined.









(** ** The profile *)

Lemma profile_of_fields (u : obj) (k : string) :
  profile_of u !! k
  = if bool_decide (k ∈ ["username"; "email"; "browser_notifications"])
    then u !! k else None.
Proof.
  unfold profile_of, set_opt.
  destruct (decide (k = "username")) as [->|H1];
    [|destruct (decide (k = "email")) as [->|H2];
      [|destruct (decide (k = "browser_notifications")) as [->|H3]]].
  - rewrite bool_decide_eq_true_2 by (apply list_elem_of_In; cbn; tauto).
    destruct (u !! "username"), (u !! "email"), (u !! "browser_notifications");
      by simplify_map_eq.
  - rewrite bool_decide_eq_true_2 by (apply list_elem_of_In; cbn; tauto).
    destruct (u !! "username"), (u !! "email"), (u !! "browser_notifications");
      by simplify_map_eq.
  - rewrite bool_decide_eq_true_2 by (apply list_elem_of_In; cbn; tauto).
    destruct (u !! "username"), (u !! "email"), (u !! "browser_notifications");
      by simplify_map_eq.
  - rewrite bool_decide_eq_false_2; cycle 1.
    { intros Hk%list_elem_of_In. cbn in Hk.
      destruct Hk as [<-|[<-|[<-|[]]]]; congruence. }
    destruct (u !! "username"), (u !! "email"), (u !! "browser_notifications");
      by simplify_map_eq.
Qed.

(** X17: [getProfile] answers 200 with the username, email and
    notification preference of the caller's user row and with nothing else
    of it, so never with the password hash; when the caller has no user row
    any more it answers 500 "Failed to get user profile".  It leaves the
    database as it was. *)
Theorem profile_hides_password (s : db) (user : obj) (uid : value) :
  users_ready s = true →
  user !! "id" = Some uid →
  getProfile user s
  = (match head (filter (λ r, r !! "id" = Some (sql_bind uid)) (rows_of "users" s)) with
     | Some u => Response 200 (Json (Some (profile_of u)))
     | None => Response 500 (Message "Failed to get user profile")
     end, s)
  ∧ ∀ u k, is_Some (profile_of u !! k) →
           k ∈ ["username"; "email"; "browser_notifications"]
           ∧ profile_of u !! k = u !! k.
Proof.
  intros Hready Huser. split.
  - destruct (users_ready_inv s Hready) as (t & Ht & Hshape).
    unfold rows_of. rewrite Ht.
    unfold getProfile, try_catch, bind, where_eq. rewrite Huser. cbn [ret].
    rewrite (knex_first_ok s "users" t Ht) by (by apply users_conds_known).
    rewrite (proj1 (filter_row_matches_single "id" uid (tbl_rows t))).
    by destruct (head _).
  - intros u k. rewrite profile_of_fields. case_bool_decide; [done|].
    by intros [??].
Qed.

(** X17, at a concrete state. *)
Lemma profile_hides_password_witness :
  getProfile alice example_db
  = (Response 200
       (Json (Some {[ "username" := VStr "alice"; "email" := VStr "alice@example.org";
                      "browser_notifications" := VNum 1 ]})), example_db)
  ∧ getProfile carol example_db
    = (Response 500 (Message "Failed to get user profile"), example_db).
Proof.
  split.
  - destruct (profile_hides_password example_db alice (VNum 1) eq_refl eq_refl)
      as [-> _].
    rewrite example_users. rewrite filter_cons_True by reflexivity.
    cbn [head].
    assert (profile_of (user_row 1 "alice" "alice@example.org" "$2a$10$wonderland")
            = {[ "username" := VStr "alice"; "email" := VStr "alice@example.org";
                 "browser_notifications" := VNum 1 ]}) as ->
      by (vm_compute; reflexivity).
    reflexivity.
  - destruct (profile_hides_password example_db carol (VNum 3) eq_refl eq_refl)
      as [-> _].
    rewrite example_users.
    rewrite !filter_cons_False by (vm_compute; discriminate). reflexivity.
Defined.

Lemma users_shape_inv (cols : list column) :
  shape cols = shape users_columns →
  ∃ d1 d2 d3 d4 d5,
    cols = [ Column "id" TInteger true false true d1 None;
             Column "username" TString false true true d2 None;
             Column "email" TString false true true d3 None;
             Column "password" TString false false true d4 None;
             Column "browser_notifications" TBoolean false false false d5 None ].
Proof.
  intros Hs. rewrite (shape_zip _ _ Hs).
  assert (length (col_default <$> cols) = 5%nat) as Hlen.
  { rewrite length_fmap. apply (f_equal length) in Hs. unfold shape in Hs.
    by rewrite !length_fmap in Hs. }
  destruct (col_default <$> cols) as [|d1 [|d2 [|d3 [|d4 [|d5 [|]]]]]];
    try discriminate Hlen.
  by exists d1, d2, d3, d4, d5.
Qed.

Lemma filter_update_rows_same (cols : list column) (col : string) (v : value) (u : obj)
    (rows : list obj) :
  u !! col = None →
  filter (row_matches [CEq col v]) (update_rows cols [CEq col v] u rows)
  = apply_update cols u <$> filter (row_matches [CEq col v]) rows.
Proof.
  intros Hu. unfold update_rows.
  induction rows as [|r rows IH]; [done|].
  rewrite fmap_cons. destruct (decide (row_matches [CEq col v] r)) as [Hm|Hm].
  - rewrite !filter_cons_True, fmap_cons, IH; [done|done|].
    apply row_matches_single. rewrite apply_update_lookup, Hu.
    by apply row_matches_single in Hm.
  - by rewrite !filter_cons_False, IH.
Qed.

Lemma users_rowid_not_written (cols : list column) (u : obj) :
  shape cols = shape users_columns →
  u !! "id" = None →
  rowid_column (written cols u) = None.
Proof.
  intros Hshape Hid. apply rowid_not_written. intros c Hc Hinc.
  destruct (users_shape_inv _ Hshape) as (d1 & d2 & d3 & d4 & d5 & Hcols).
  rewrite Hcols in Hc. apply list_elem_of_In in Hc. simpl in Hc.
  destruct Hc as [<-|[<-|[<-|[<-|[<-|[]]]]]]; done.
Qed.

(** X18: [updateProfile] with a [browser_notifications] value the
    embedding covers answers 200 with the refreshed profile, in which the
    preference is the value sent as the boolean column stores it: [true]
    and [false] as 1 and 0, a text that reads as an integer as that integer
    (so "0" as 0), anything else as it is.  It sets that column in the
    caller's user row and changes no other row, no other column and no
    task. *)
Theorem update_profile_sets_preference (s : db) (user req_body : obj) (uid v : value)
    (u0 : obj) :
  users_ready s = true →
  user !! "id" = Some uid →
  req_body !! "browser_notifications" = Some v →
  storable TBoolean (sql_bind v) = true →
  u0 ∈ rows_of "users" s →
  u0 !! "id" = Some (sql_bind uid) →
  let preference := stored TBoolean (sql_bind v) in
  ∃ profile s',
    updateProfile user req_body s = (Response 200 (Json (Some profile)), s')
    ∧ profile !! "browser_notifications" = Some preference
    ∧ rows_of "users" s'
      = (λ r, if decide (r !! "id" = Some (sql_bind uid))
              then <["browser_notifications" := preference]> r else r)
          <$> rows_of "users" s
    ∧ rows_of "tasks" s' = rows_of "tasks" s.
Proof.
  intros Hready Huser Hv _ Hu0 Hid0 preference.
  destruct (users_ready_inv s Hready) as (t & Ht & Hshape).
  unfold rows_of in Hu0 |- *. rewrite Ht in Hu0 |- *.
  set (u := ({[ "browser_notifications" := v ]} : obj)).
  assert (Hstored : stored_in (tbl_columns t) "browser_notifications" v = preference)
    by (by rewrite (stored_in_shape _ _ _ _ Hshape)).
  unfold updateProfile, try_catch, bind, where_eq. rewrite Huser, Hv. cbn [ret set_opt].
  change (<["browser_notifications" := v]> ∅ : obj) with u.
  rewrite (knex_update_ok s "users" t [CEq "id" uid] u Ht); cycle 1.
  { apply insert_non_empty. }
  { by apply users_conds_known. }
  { unfold keys_known. apply bool_decide_eq_true. apply map_Forall_singleton.
    unfold col_names. rewrite (shape_col_names _ _ Hshape).
    apply list_elem_of_In. cbn. tauto. }
  { by apply users_rowid_not_written. }
  { intros r c _ _ Hc Hsome.
    destruct (users_shape_inv _ Hshape) as (d1 & d2 & d3 & d4 & d5 & Hcols).
    rewrite Hcols in Hc. apply list_elem_of_In in Hc. cbn in Hc.
    destruct Hc as [<-|[<-|[<-|[<-|[<-|[]]]]]]; cbn [col_name] in Hsome;
      try (unfold u in Hsome; rewrite lookup_singleton_ne in Hsome by done;
           by destruct Hsome).
    done. }
  set (t' := Table _ _ _). set (s' := <["users" := t']> s).
  assert (Ht' : s' !! "users" = Some t') by apply lookup_insert_eq.
  rewrite (knex_first_ok s' "users" t' Ht'); cycle 1.
  { unfold conds_known. cbn. unfold has_col, col_names, t'. cbn [tbl_columns].
    by rewrite (shape_col_names _ _ Hshape). }
  unfold t' at 1. cbn [tbl_rows]. rewrite filter_update_rows_same by done.
  destruct (filter (row_matches [CEq "id" uid]) (tbl_rows t)) as [|r l] eqn:Hf.
  { exfalso. apply (filter_nil_not_elem_of _ _ u0 Hf); [|done].
    by apply row_matches_single. }
  cbn [fmap list_fmap head profile_response ret].
  eexists _, _. split; [reflexivity|].
  split.
  { rewrite profile_of_fields.
    rewrite bool_decide_eq_true_2 by (apply list_elem_of_In; cbn; tauto).
    rewrite apply_update_lookup. unfold u. by rewrite lookup_singleton_eq, Hstored. }
  unfold s'. rewrite lookup_insert_eq, lookup_insert_ne by done. split; [|done].
  unfold t'. cbn [tbl_rows]. unfold update_rows. apply list_fmap_ext. intros _ r' _.
  destruct (decide (row_matches _ r')) as [Hm|Hm],
           (decide (r' !! "id" = Some (sql_bind uid))) as [Hi|Hi]; try done.
  - unfold u. by rewrite apply_update_singleton, Hstored.
  - exfalso. by apply row_matches_single in Hm.
  - exfalso. apply Hm. by apply row_matches_single.
Qed.

(** X18, at a concrete state: bob turns his notifications off with the
    text "0". *)
Lemma update_profile_sets_preference_witness :
  ∃ profile s',
    updateProfile bob {[ "browser_notifications" := VStr "0" ]} example_db
    = (Response 200 (Json (Some profile)), s')
    ∧ profile !! "browser_notifications" = Some (VNum 0)
    ∧ rows_of "users" s'
      = (λ r, if decide (r !! "id" = Some (VNum 2))
              then <["browser_notifications" := VNum 0]> r else r)
          <$> rows_of "users" example_db
    ∧ rows_of "tasks" s' = rows_of "tasks" example_db.
Proof.
  apply (update_profile_sets_preference example_db bob
           {[ "browser_notifications" := VStr "0" ]} (VNum 2) (VStr "0")
           (user_row 2 "bob" "bob@example.org" "$2a$10$builder")).
  - reflexivity.
  - reflexivity.
  - reflexivity.
  - reflexivity.
  - rewrite example_users. right. left.
  - reflexivity.
Defined.

(** X19: [updateProfile] with a body that has no [browser_notifications]
    field answers 500 "Failed to update settings" and changes nothing: knex
    refuses the update that sets no column. *)
Theorem update_profile_needs_field (s : db) (user req_body : obj) :
  req_body !! "browser_notifications" = None →
  updateProfile user req_body s
  = (Response 500 (Message "Failed to update settings"), s).
Proof.
  intros Hv. unfold updateProfile, try_catch, bind, where_eq. rewrite Hv.
  destruct (user !! "id"); [|done]. cbn [ret set_opt].
  unfold knex_update. by rewrite bool_decide_eq_true_2.
Qed.

(** X19, at a concrete state: a misspelt field. *)
Lemma update_profile_needs_field_witness :
  updateProfile bob {[ "browserNotifications" := VBool false ]} example_db
  = (Response 500 (Message "Failed to update settings"), example_db).
Proof. apply (update_profile_needs_field example_db bob). reflexivity. Defined.

(** ** Registration *)

Lemma sanitized_fields `{Validator} (req_body : obj) :
  sanitized req_body !! "username"
  = Some (VStr (validator_trim (field_string (req_body !! "username"))))
  ∧ sanitized req_body !! "email" = req_body !! "email"
  ∧ sanitized req_body !! "password" = req_body !! "password".
Proof. unfold sanitized. by simplify_map_eq. Qed.

Lemma validation_paths `{Validator} (req_body : obj) :
  ve_path <$> validationResult req_body
  = (if validator_isLength 3 (validator_trim (field_string (req_body !! "username")))
     then [] else ["username"])
    ++ (if validator_isEmail (field_string (req_body !! "email")) then [] else ["email"])
    ++ (if validator_isLength 6 (field_string (req_body !! "password"))
        then [] else ["password"]).
Proof.
  destruct (sanitized_fields req_body) as (Hu & He & Hp).
  unfold validationResult. cbv zeta. rewrite Hu, He, Hp. cbn [field_string].
  by destruct (validator_isLength 3 _), (validator_isEmail _), (validator_isLength 6 _).
Qed.

Lemma validation_passes `{Validator} (req_body : obj) :
  validator_isLength 3 (validator_trim (field_string (req_body !! "username"))) = true →
  validator_isEmail (field_string (req_body !! "email")) = true →
  validator_isLength 6 (field_string (req_body !! "password")) = true →
  validationResult req_body = [].
Proof.
  intros Hu He Hp. pose proof (validation_paths req_body) as Hpaths.
  rewrite Hu, He, Hp in Hpaths. by apply fmap_nil_inv in Hpaths.
Qed.

(** X20: [register] reports every violated rule, not only the first.  When
    the trimmed username is shorter than 3, or the email is not an email,
    or the password is shorter than 6, the answer is 400 "Invalid input"
    with one error for each field that fails and none for a field that
    passes; the database is not looked at and not changed. *)
Theorem register_reports_violations `{Validator} `{BcryptHash} `{Host}
    (req_body : obj) (salt : string) (now : Z) (s : db) :
  let username_ok :=
    validator_isLength 3 (validator_trim (field_string (req_body !! "username"))) in
  let email_ok := validator_isEmail (field_string (req_body !! "email")) in
  let password_ok := validator_isLength 6 (field_string (req_body !! "password")) in
  username_ok && email_ok && password_ok = false →
  ∃ errors,
    register req_body salt now s = (InvalidInput errors, s)
    ∧ ve_path <$> errors
      = (if username_ok then [] else ["username"])
        ++ (if email_ok then [] else ["email"])
        ++ (if password_ok then [] else ["password"]).
Proof.
  intros username_ok email_ok password_ok Hfail.
  exists (validationResult req_body).
  pose proof (validation_paths req_body) as Hpaths.
  fold username_ok email_ok password_ok in Hpaths.
  split; [|done].
  unfold register. cbv zeta.
  rewrite bool_decide_eq_false_2; [done|].
  intros Hnil. rewrite Hnil in Hpaths.
  by destruct username_ok, email_ok, password_ok.
Qed.

(** X20, with the stand-in validators: two rules violated. *)
Lemma register_reports_violations_witness :
  ∃ errors,
    @register ascii_validator prefix_hash utc
      {[ "username" := VStr "  al  "; "email" := VStr "alice@example.org";
         "password" := VStr "12345" ]} "salt" 0 example_db
    = (InvalidInput errors, example_db)
    ∧ ve_path <$> errors = ["username"; "password"].
Proof.
  refine (@register_reports_violations ascii_validator prefix_hash utc
            {[ "username" := VStr "  al  "; "email" := VStr "alice@example.org";
               "password" := VStr "12345" ]} "salt" 0 example_db _).
  vm_compute. reflexivity.
Defined.

Lemma knex_first_or_ok (s : db) (tbl : string) (t : table) (cs1 cs2 : list cond) :
  s !! tbl = Some t →
  conds_known t cs1 = true → conds_known t cs2 = true →
  knex_first_or tbl cs1 cs2 s
  = (Ok (head (filter (λ r, row_matches cs1 r ∨ row_matches cs2 r) (tbl_rows t))), s).
Proof.
  intros Ht H1 H2. unfold knex_first_or, bind. by rewrite (get_table_ok s tbl t Ht), H1, H2.
Qed.

Lemma register_taken `{Validator} `{BcryptHash} `{Host}
    (req_body : obj) (email : value) (salt : string) (now : Z) (s : db) (t : table)
    (r0 : obj) :
  s !! "users" = Some t →
  shape (tbl_columns t) = shape users_columns →
  validationResult req_body = [] →
  req_body !! "email" = Some email →
  r0 ∈ tbl_rows t →
  r0 !! "email" = Some (sql_bind email)
  ∨ r0 !! "username"
    = Some (VStr (validator_trim (field_string (req_body !! "username")))) →
  register req_body salt now s
  = (Replied (Response 400 (Message "Email or Username already exists")), s).
Proof.
  intros Ht Hshape Hvalid Hemail Hr0 Hsame.
  destruct (sanitized_fields req_body) as (Hu & He & Hp).
  unfold register. cbv zeta. rewrite Hvalid.
  rewrite bool_decide_eq_true_2 by done. cbn [negb].
  unfold try_catch, bind, where_eq. rewrite He, Hemail, Hu. cbn [ret].
  rewrite (knex_first_or_ok s "users" t _ _ Ht) by (by apply users_conds_known).
  destruct (filter _ (tbl_rows t)) as [|r l] eqn:Hf; [|done].
  exfalso. apply (filter_nil_not_elem_of _ _ r0 Hf); [|done].
  destruct Hsame as [Hsame|Hsame]; [left|right]; by apply row_matches_single.
Qed.

(** X21: [register] refuses a taken email or username.  When the body
    passes validation and some user row has its email, or its trimmed
    username, the answer is 400 "Email or Username already exists" and the
    database is not changed. *)
Theorem register_conflict `{Validator} `{BcryptHash} `{Host}
    (req_body : obj) (email : value) (salt : string) (now : Z) (s : db) (r0 : obj) :
  users_ready s = true →
  validationResult req_body = [] →
  req_body !! "email" = Some email →
  r0 ∈ rows_of "users" s →
  r0 !! "email" = Some (sql_bind email)
  ∨ r0 !! "username"
    = Some (VStr (validator_trim (field_string (req_body !! "username")))) →
  register req_body salt now s
  = (Replied (Response 400 (Message "Email or Username already exists")), s).
Proof.
  intros Hready Hvalid Hemail Hr0 Hsame.
  destruct (users_ready_inv s Hready) as (t & Ht & Hshape).
  unfold rows_of in Hr0. rewrite Ht in Hr0.
  by apply (register_taken req_body email salt now s t r0).
Qed.

(** X21, at a concrete state: a new username with alice's email. *)
Lemma register_conflict_witness :
  @register ascii_validator prefix_hash utc
    {[ "username" := VStr "alice2"; "email" := VStr "alice@example.org";
       "password" := VStr "rabbit hole" ]} "salt" 0 example_db
  = (Replied (Response 400 (Message "Email or Username already exists")), example_db).
Proof.
  apply (@register_conflict ascii_validator prefix_hash utc _
           (VStr "alice@example.org") "salt" 0 example_db
           (user_row 1 "alice" "alice@example.org" "$2a$10$wonderland")).
  - reflexivity.
  - vm_compute. reflexivity.
  - reflexivity.
  - rewrite example_users. left.
  - left. reflexivity.
Defined.

Section register_ok.
Context `{Validator} `{BcryptHash} `{Host}.
Context (req_body : obj) (email password salt : string) (now : Z) (s : db) (t : table).
Let username := validator_trim (field_string (req_body !! "username")).
Let hashed := bcrypt_hash password 10 salt.
Hypothesis Ht : s !! "users" = Some t.
Hypothesis Hshape : shape (tbl_columns t) = shape users_columns.
Hypothesis Hemail : req_body !! "email" = Some (VStr email).
Hypothesis Hpassword : req_body !! "password" = Some (VStr password).
Hypothesis Hvalid : validationResult req_body = [].
Hypothesis Hfree : ∀ r, r ∈ tbl_rows t →
  r !! "email" ≠ Some (VStr email) ∧ r !! "username" ≠ Some (VStr username).

Let fields : obj :=
  {[ "username" := VStr username; "email" := VStr email; "password" := VStr hashed;
     "browser_notifications" := VBool true ]}.

Lemma user_fields_known : keys_known t fields = true.
Proof.
  unfold keys_known. apply bool_decide_eq_true.
  unfold col_names. rewrite (shape_col_names _ _ Hshape).
  unfold fields.
  repeat (apply map_Forall_insert_2; [by vm_compute; repeat constructor|]).
  apply map_Forall_empty.
Qed.

Lemma new_row_registered ts :
  new_row ts (next_id t) fields (tbl_columns t) = user_row (next_id t) username email hashed.
Proof.
  destruct (users_shape_inv _ Hshape) as (d1&d2&d3&d4&d5&->).
  unfold new_row, user_row, fields.
  vm_compute. reflexivity.
Qed.

Lemma registered_row_ok :
  let row := user_row (next_id t) username email hashed in
  row_ok (tbl_columns t) (tbl_rows t ++ [row]) row = true.
Proof.
  intros row.
  destruct (users_shape_inv _ Hshape) as (d1&d2&d3&d4&d5&->).
  assert (row !! "id" = Some (VNum (next_id t))) as Hid by done.
  assert (row !! "username" = Some (VStr username)) as Hu by done.
  assert (row !! "email" = Some (VStr email)) as He by done.
  assert (row !! "password" = Some (VStr hashed)) as Hp by done.
  unfold row_ok. cbn [forallb col_name col_notnull col_increments col_unique].
  rewrite Hid, Hu, He, Hp.
  cbn [negb orb andb is_null is_num].
  rewrite !filter_app, !(filter_none _ (tbl_rows t)), !filter_cons_True by
    (done || (intros r Hr; by apply next_id_fresh) || (intros r Hr; by apply Hfree)).
  done.
Qed.

Lemma register_ok :
  register req_body salt now s
  = (Replied (Response 201 (Message "Registration successful")),
     <["users" := Table (tbl_columns t)
                    (tbl_rows t ++ [user_row (next_id t) username email hashed])
                    (Z.max (tbl_seq t) (next_id t))]> s).
Proof.
  destruct (sanitized_fields req_body) as (Hu & He & Hp).
  unfold register. cbv zeta. rewrite Hvalid.
  rewrite bool_decide_eq_true_2 by done. cbn [negb].
  unfold try_catch, bind, where_eq. rewrite He, Hp, Hemail, Hpassword, Hu. cbn [ret].
  rewrite (knex_first_or_ok s "users" t _ _ Ht) by (by apply users_conds_known).
  rewrite filter_none.
  2:{ intros r Hr [Hm%row_matches_single|Hm%row_matches_single];
        by destruct (Hfree r Hr). }
  cbn [head bcrypt_hash_value ret or_default].
  fold username hashed fields.
  unfold knex_insert, bind.
  rewrite (get_table_ok s "users" t Ht), user_fields_known. cbn [negb].
  cbv zeta. rewrite new_row_registered.
  pose proof registered_row_ok as Hok. cbv zeta in Hok. rewrite Hok.
  assert (user_row (next_id t) username email hashed !! "id" = Some (VNum (next_id t)))
    as -> by done.
  done.
Qed.
End register_ok.

(** X22: a registration that passes validation and collides with no user
    is stored.  The answer is 201 "Registration successful"; the [users]
    table gets one row at its end, with a fresh id, the trimmed username,
    the email, the hash of the password (never the password) and browser
    notifications switched on; the rows that were there and the tasks are
    as before. *)
Theorem register_creates_user `{Validator} `{BcryptHash} `{Host}
    (req_body : obj) (email password salt : string) (now : Z) (s : db) :
  let username := validator_trim (field_string (req_body !! "username")) in
  users_ready s = true →
  req_body !! "email" = Some (VStr email) →
  req_body !! "password" = Some (VStr password) →
  validator_isLength 3 username = true →
  validator_isEmail email = true →
  validator_isLength 6 password = true →
  (∀ r, r ∈ rows_of "users" s →
        r !! "email" ≠ Some (VStr email) ∧ r !! "username" ≠ Some (VStr username)) →
  ∃ id s',
    register req_body salt now s
    = (Replied (Response 201 (Message "Registration successful")), s')
    ∧ rows_of "users" s'
      = rows_of "users" s
        ++ [user_row id username email (bcrypt_hash password 10 salt)]
    ∧ (∀ r, r ∈ rows_of "users" s → r !! "id" ≠ Some (VNum id))
    ∧ users_ready s' = true
    ∧ s' !! "tasks" = s !! "tasks".
Proof.
  intros username Hready Hemail Hpassword Hu He Hp Hfree.
  destruct (users_ready_inv s Hready) as (t & Ht & Hshape).
  unfold rows_of in Hfree |- *. rewrite Ht in Hfree |- *.
  eexists (next_id t), _. split.
  - apply (register_ok req_body email password salt now s t); try done.
    apply validation_passes; by rewrite ?Hemail, ?Hpassword.
  - rewrite lookup_insert_eq. cbn [tbl_rows]. split; [done|].
    split; [intros r Hr; by apply next_id_fresh|].
    split; [|by rewrite lookup_insert_ne].
    unfold users_ready. rewrite lookup_insert_eq. cbn [tbl_columns].
    by apply bool_decide_eq_true.
Qed.

(** X22, at a concrete state: carol registers, with spaces around her
    name. *)
Lemma register_creates_user_witness :
  ∃ id s',
    @register ascii_validator prefix_hash utc
      {[ "username" := VStr "  carol "; "email" := VStr "carol@example.org";
         "password" := VStr "looking glass" ]} "salt" 0 example_db
    = (Replied (Response 201 (Message "Registration successful")), s')
    ∧ rows_of "users" s'
      = rows_of "users" example_db
        ++ [user_row id "carol" "carol@example.org" "$2a$10$looking glass"]
    ∧ (∀ r, r ∈ rows_of "users" example_db → r !! "id" ≠ Some (VNum id))
    ∧ users_ready s' = true
    ∧ s' !! "tasks" = example_db !! "tasks".
Proof.
  refine (@register_creates_user ascii_validator prefix_hash utc
            {[ "username" := VStr "  carol "; "email" := VStr "carol@example.org";
               "password" := VStr "looking glass" ]}
            "carol@example.org" "looking glass" "salt" 0 example_db _ _ _ _ _ _ _).
  - reflexivity.
  - reflexivity.
  - reflexivity.
  - vm_compute. reflexivity.
  - vm_compute. reflexivity.
  - vm_compute. reflexivity.
  - intros r Hr. rewrite example_users in Hr. each_row Hr; by split.
Defined.

(** X23: who has registered can log in.  After a successful registration,
    a login with the same email and password, on the database the
    registration left, is answered 200 with the trimmed username, the email
    and a token signed for the new row, provided the password verifies
    against the hash [bcrypt.hash] made of it. *)
Theorem register_then_login `{Validator} `{BcryptHash} `{Host} `{Jwt} `{Bcrypt}
    (secret : string) (req_body credentials : obj) (email password salt : string)
    (now now' : Z) (s : db) :
  let username := validator_trim (field_string (req_body !! "username")) in
  let hashed := bcrypt_hash password 10 salt in
  users_ready s = true →
  req_body !! "email" = Some (VStr email) →
  req_body !! "password" = Some (VStr password) →
  validator_isLength 3 username = true →
  validator_isEmail email = true →
  validator_isLength 6 password = true →
  (∀ r, r ∈ rows_of "users" s →
        r !! "email" ≠ Some (VStr email) ∧ r !! "username" ≠ Some (VStr username)) →
  credentials !! "email" = Some (VStr email) →
  credentials !! "password" = Some (VStr password) →
  bcrypt_verify password hashed = true →
  ∃ id s',
    register req_body salt now s
    = (Replied (Response 201 (Message "Registration successful")), s')
    ∧ login secret credentials now' s'
      = (Response 200
           (LoginOk (signToken secret (user_row id username email hashed) now')
                    (Some (VStr username)) (Some (VStr email))),
         s').
Proof.
  intros username hashed Hready Hemail Hpassword Hu He Hp Hfree Hcemail Hcpassword Hverify.
  destruct (users_ready_inv s Hready) as (t & Ht & Hshape).
  unfold rows_of in Hfree. rewrite Ht in Hfree.
  set (row := user_row (next_id t) username email hashed).
  set (t' := Table (tbl_columns t) (tbl_rows t ++ [row]) (Z.max (tbl_seq t) (next_id t))).
  set (s' := <["users" := t']> s).
  exists (next_id t), s'. split.
  - apply (register_ok req_body email password salt now s t); try done.
    apply validation_passes; by rewrite ?Hemail, ?Hpassword.
  - fold row.
    assert (Ht' : s' !! "users" = Some t') by apply lookup_insert_eq.
    unfold login, try_catch, bind, where_eq. rewrite Hcemail. cbn [ret].
    rewrite (knex_first_ok s' "users" t' Ht') by (by apply users_conds_known).
    rewrite (proj1 (filter_row_matches_single "email" (VStr email) (tbl_rows t'))).
    unfold t'. cbn [tbl_rows sql_bind].
    rewrite filter_app, filter_none, filter_cons_True by
      (done || (intros r Hr; by apply Hfree)).
    cbn [app filter head].
    unfold bcrypt_compare. rewrite Hcpassword.
    assert (row !! "password" = Some (VStr hashed)) as -> by done.
    cbn [ret]. by rewrite Hverify.
Qed.

(** X23, at a concrete state: carol registers and logs in. *)
Lemma register_then_login_witness :
  ∃ id s',
    @register ascii_validator prefix_hash utc
      {[ "username" := VStr "  carol "; "email" := VStr "carol@example.org";
         "password" := VStr "looking glass" ]} "salt" 0 example_db
    = (Replied (Response 201 (Message "Registration successful")), s')
    ∧ @login plain_jwt prefix_bcrypt "k"
        {[ "email" := VStr "carol@example.org"; "password" := VStr "looking glass" ]}
        1000 s'
      = (Response 200
           (LoginOk (@signToken plain_jwt "k"
                       (user_row id "carol" "carol@example.org" "$2a$10$looking glass")
                       1000)
                    (Some (VStr "carol")) (Some (VStr "carol@example.org"))),
         s').
Proof.
  refine (@register_then_login ascii_validator prefix_hash utc plain_jwt prefix_bcrypt "k"
            {[ "username" := VStr "  carol "; "email" := VStr "carol@example.org";
               "password" := VStr "looking glass" ]}
            {[ "email" := VStr "carol@example.org"; "password" := VStr "looking glass" ]}
            "carol@example.org" "looking glass" "salt" 0 1000 example_db
            _ _ _ _ _ _ _ _ _ _).
  - reflexivity.
  - reflexivity.
  - reflexivity.
  - vm_compute. reflexivity.
  - vm_compute. reflexivity.
  - vm_compute. reflexivity.
  - intros r Hr. rewrite example_users in Hr. each_row Hr; by split.
  - reflexivity.
  - reflexivity.
  - vm_compute. reflexivity.
Defined.

(** X24: an email and a username register once.  After a successful
    registration, any later registration that passes validation and has the
    same email, or the same username up to the surrounding white space, is
    answered 400 "Email or Username already exists" and changes nothing. *)
Theorem register_once `{Validator} `{BcryptHash} `{Host}
    (req_body again : obj) (email password salt salt' : string) (email' : value)
    (now now' : Z) (s : db) :
  let username := validator_trim (field_string (req_body !! "username")) in
  users_ready s = true →
  req_body !! "email" = Some (VStr email) →
  req_body !! "password" = Some (VStr password) →
  validator_isLength 3 username = true →
  validator_isEmail email = true →
  validator_isLength 6 password = true →
  (∀ r, r ∈ rows_of "users" s →
        r !! "email" ≠ Some (VStr email) ∧ r !! "username" ≠ Some (VStr username)) →
  validationResult again = [] →
  again !! "email" = Some email' →
  email' = VStr email
  ∨ validator_trim (field_string (again !! "username")) = username →
  ∃ s',
    register req_body salt now s
    = (Replied (Response 201 (Message "Registration successful")), s')
    ∧ register again salt' now' s'
      = (Replied (Response 400 (Message "Email or Username already exists")), s').
Proof.
  intros username Hready Hemail Hpassword Hu He Hp Hfree Hvalid Hemail' Hsame.
  destruct (users_ready_inv s Hready) as (t & Ht & Hshape).
  unfold rows_of in Hfree. rewrite Ht in Hfree.
  set (row := user_row (next_id t) username email (bcrypt_hash password 10 salt)).
  set (t' := Table (tbl_columns t) (tbl_rows t ++ [row]) (Z.max (tbl_seq t) (next_id t))).
  set (s' := <["users" := t']> s).
  exists s'. split.
  - apply (register_ok req_body email password salt now s t); try done.
    apply validation_passes; by rewrite ?Hemail, ?Hpassword.
  - apply (register_taken again email' salt' now' s' t' row); try done.
    + apply lookup_insert_eq.
    + unfold t'. cbn [tbl_rows]. apply elem_of_app. right. left.
    + destruct Hsame as [-> | Hname]; [by left|]. right. by rewrite Hname.
Qed.

(** X24, at a concrete state: carol registers, and then someone else tries
    her email with another name. *)
Lemma register_once_witness :
  ∃ s',
    @register ascii_validator prefix_hash utc
      {[ "username" := VStr "  carol "; "email" := VStr "carol@example.org";
         "password" := VStr "looking glass" ]} "salt" 0 example_db
    = (Replied (Response 201 (Message "Registration successful")), s')
    ∧ @register ascii_validator prefix_hash utc
        {[ "username" := VStr "caroline"; "email" := VStr "carol@example.org";
           "password" := VStr "jabberwocky" ]} "pepper" 1000 s'
      = (Replied (Response 400 (Message "Email or Username already exists")), s').
Proof.
  refine (@register_once ascii_validator prefix_hash utc
            {[ "username" := VStr "  carol "; "email" := VStr "carol@example.org";
               "password" := VStr "looking glass" ]}
            {[ "username" := VStr "caroline"; "email" := VStr "carol@example.org";
               "password" := VStr "jabberwocky" ]}
            "carol@example.org" "looking glass" "salt" "pepper"
            (VStr "carol@example.org") 0 1000 example_db
            _ _ _ _ _ _ _ _ _ _).
  - reflexivity.
  - reflexivity.
  - reflexivity.
  - vm_compute. reflexivity.
  - vm_compute. reflexivity.
  - vm_compute. reflexivity.
  - intros r Hr. rewrite example_users in Hr. each_row Hr; by split.
  - vm_compute. reflexivity.
  - reflexivity.
  - left. reflexivity.
Defined.

(** ** Requests in a row *)







Section delete_account.
Context (s : db) (t u : table) (user : obj) (uid : value).
Hypothesis Ht : s !! "tasks" = Some t.
Hypothesis Hshape : shape (tbl_columns t) = shape tasks_columns.
Hypothesis Hu : s !! "users" = Some u.
Hypothesis Hushape : shape (tbl_columns u) = shape users_columns.
Hypothesis Huser : user !! "id" = Some uid.

Let t' := Table (tbl_columns t)
            (filter (λ r, ¬ row_matches [CEq "user_id" uid] r) (tbl_rows t)) (tbl_seq t).
Let u' := Table (tbl_columns u)
            (filter (λ r, ¬ row_matches [CEq "id" uid] r) (tbl_rows u)) (tbl_seq u).

Lemma deleteAccount_steps :
  deleteAccount user s
  = match filter (row_matches [CEq "id" uid]) (tbl_rows u) with
    | [] => (Response 500 (Message "Failed to delete account"), s)
    | _ :: _ => (Response 200 (Message "Account and all data deleted successfully"),
                 <["users" := u']> (<["tasks" := t']> s))
    end.
Proof.
  set (s1 := <["tasks" := t']> s).
  assert (Hu1 : s1 !! "users" = Some u) by (unfold s1; by rewrite lookup_insert_ne).
  unfold deleteAccount, try_catch, bind, transaction, where_eq.
  rewrite Huser. cbn [ret].
  rewrite (knex_del_ok s "tasks" t Ht) by (by apply tasks_conds_known).
  fold t' s1.
  rewrite (knex_del_ok s1 "users" u Hu1) by (by apply users_conds_known).
  fold u'.
  by destruct (filter (row_matches [CEq "id" uid]) (tbl_rows u)).
Qed.
End delete_account.

Lemma filter_filter_not {A} (P : A → Prop) `{∀ x, Decision (P x)} (l : list A) :
  filter P (filter (λ x, ¬ P x) l) = [].
Proof. apply filter_none. by intros x [Hx _]%list_elem_of_filter. Qed.

(** X27: what is left for the token of a deleted account.  [requireAuth]
    does not look at the database, so the token still passes; but after a
    successful [deleteAccount] the same caller gets 500 "Failed to get user
    profile" from [getProfile], an empty list from [listTasks], and 500
    "Failed to delete account" from a second [deleteAccount], and none of
    these requests changes the database. *)
Theorem deleted_account_is_gone (s : db) (user : obj) (uid : value) (r0 : obj) :
  tasks_ready s = true →
  users_ready s = true →
  user !! "id" = Some uid →
  r0 ∈ rows_of "users" s →
  r0 !! "id" = Some (sql_bind uid) →
  ∃ s',
    deleteAccount user s
    = (Response 200 (Message "Account and all data deleted successfully"), s')
    ∧ getProfile user s' = (Response 500 (Message "Failed to get user profile"), s')
    ∧ listTasks user s' = (Response 200 (JsonList []), s')
    ∧ deleteAccount user s' = (Response 500 (Message "Failed to delete account"), s').
Proof.
  intros Htasks Husers Huser Hr0 Hid.
  destruct (tasks_ready_inv s Htasks) as (t & Ht & Hshape).
  destruct (users_ready_inv s Husers) as (u & Hu & Hushape).
  unfold rows_of in Hr0. rewrite Hu in Hr0.
  set (t' := Table (tbl_columns t)
               (filter (λ r, ¬ row_matches [CEq "user_id" uid] r) (tbl_rows t)) (tbl_seq t)).
  set (u' := Table (tbl_columns u)
               (filter (λ r, ¬ row_matches [CEq "id" uid] r) (tbl_rows u)) (tbl_seq u)).
  set (s' := <["users" := u']> (<["tasks" := t']> s)).
  assert (Hu' : s' !! "users" = Some u') by apply lookup_insert_eq.
  assert (Ht' : s' !! "tasks" = Some t').
  { unfold s'. rewrite lookup_insert_ne by done. apply lookup_insert_eq. }
  exists s'. split; [|split; [|split]].
  - rewrite (deleteAccount_steps s t u user uid) by done.
    destruct (filter (row_matches [CEq "id" uid]) (tbl_rows u)) as [|r1 l] eqn:Hf; [|done].
    exfalso. apply (filter_nil_not_elem_of _ _ r0 Hf); [|done].
    by apply row_matches_single.
  - unfold getProfile, try_catch, bind, where_eq. rewrite Huser. cbn [ret].
    rewrite (knex_first_ok s' "users" u' Hu') by (by apply users_conds_known).
    unfold u'. cbn [tbl_rows]. by rewrite filter_filter_not.
  - unfold listTasks, try_catch, bind, where_eq. rewrite Huser. cbn [ret].
    rewrite (knex_select_ordered_ok s' "tasks" t' Ht');
      [|by apply tasks_conds_known|by rewrite (has_col_shape t' tasks_columns)].
    unfold t'. cbn [tbl_rows]. by rewrite filter_filter_not.
  - rewrite (deleteAccount_steps s' t' u' user uid) by done.
    unfold u'. cbn [tbl_rows]. by rewrite filter_filter_not.
Qed.

(** X27, at a concrete state: alice deletes her account. *)
Lemma deleted_account_is_gone_witness :
  ∃ s',
    deleteAccount alice example_db
    = (Response 200 (Message "Account and all data deleted successfully"), s')
    ∧ getProfile alice s' = (Response 500 (Message "Failed to get user profile"), s')
    ∧ listTasks alice s' = (Response 200 (JsonList []), s')
    ∧ deleteAccount alice s' = (Response 500 (Message "Failed to delete account"), s').
Proof.
  apply (deleted_account_is_gone example_db alice (VNum 1)
           (user_row 1 "alice" "alice@example.org" "$2a$10$wonderland")).
  - reflexivity.
  - reflexivity.
  - reflexivity.
  - rewrite example_users. left.
  - reflexivity.
Defined.


